(** * GSD-222 (Redpath): the ledger normaliser of [app.py]

    A shallow embedding of [process_file] and of its three nested helpers
    [determine_doc_type], [format_balance] and [parse_date], together with
    the part of the Python runtime they call: [str], [str.strip],
    [str.replace], [str.lower], [str.endswith], [float], the [.2f] format,
    [repr] of a float, [datetime.strptime] and [strftime].

    What the embedding does not compute is taken as an interface
    ([Runtime], below): the two pandas readers, which return a frame or
    raise, and the permissive [pd.to_datetime] fallback.  Every theorem
    holds for every implementation of that interface.

    Conventions.
    - Strings are sequences of bytes; the character classes of the runtime
      (whitespace, digits, letter case) are modelled on their ASCII range,
      and month abbreviations are the English ones.
    - A cell is text, an integer or a float, and an empty cell is the
      float nan; the dates and booleans a spreadsheet reader can also
      return are not modelled.
    - Every column of a frame has a dtype.  An assignment of a value the
      column's dtype cannot hold raises [TypeError] (pandas 3); a column
      is never retyped by an assignment.
    - [strftime] is the one of the C library: [%d] and [%m] write two
      digits, [%Y] writes the year without leading zeros.
    - Python code returns or raises: [Exc] keeps the two apart, and
      [try_except] is the bare [try: ... except: ...] of the source. *)

From Stdlib Require Import ZArith Lia Bool Ascii String.
From Stdlib Require Import Numbers.DecimalString Numbers.DecimalPos.
From stdpp Require Import base list strings.

Local Open Scope string_scope.
Local Open Scope Z_scope.

(** ** Exceptions

    Python code either returns a value or raises.  The helpers of
    [process_file] wrap their bodies in [try: ... except: ...], so the
    embedding keeps raising and catching explicit. *)

Inductive PyExc : Type :=
| ValueError
| TypeError
| IndexError
| OtherError (tag : string).

Inductive Exc (A : Type) : Type :=
| Ret (a : A)
| Raise (e : PyExc).

Arguments Ret {A} a.
Arguments Raise {A} e.

#[global] Instance Exc_ret : MRet Exc := fun A a => Ret a.

#[global] Instance Exc_bind : MBind Exc := fun A B k c =>
  match c with
  | Ret a => k a
  | Raise e => Raise e
  end.

(** [try: body  except: handler] with a bare [except]. *)
Definition try_except {A} (body : Exc A) (handler : Exc A) : Exc A :=
  match body with
  | Ret a => Ret a
  | Raise _ => handler
  end.

(** [Series.apply f]: [f] on every element in order; the first exception
    that escapes [f] escapes [apply]. *)
Fixpoint apply {A B} (f : A -> Exc B) (col : list A) : Exc (list B) :=
  match col with
  | [] => Ret []
  | x :: rest =>
      y ← f x;
      ys ← apply f rest;
      Ret (y :: ys)
  end.

Definition returns {A} (c : Exc A) : Prop := exists a, c = Ret a.

(** ** Characters and strings *)

Definition chars (s : string) : list ascii := list_ascii_of_string s.
Definition text (l : list ascii) : string := string_of_list_ascii l.

Definition code (c : ascii) : N := N_of_ascii c.

(** [str.isspace] on the ASCII range: TAB, LF, VT, FF, CR, the four
    separators FS, GS, RS, US, and the space. *)
Definition is_space (c : ascii) : bool :=
  let n := code c in
  ((9 <=? n) && (n <=? 13) || (28 <=? n) && (n <=? 31) || (n =? 32))%N.

Definition is_digit (c : ascii) : bool :=
  let n := code c in ((48 <=? n) && (n <=? 57))%N.

Definition digit_val (c : ascii) : Z := Z.of_N (code c) - 48.

Definition lower_char (c : ascii) : ascii :=
  let n := code c in
  if ((65 <=? n) && (n <=? 90))%N then ascii_of_N (n + 32) else c.

(** [s.lower()] *)
Definition lower (s : string) : string := text (map lower_char (chars s)).

(** The whitespace of the C locale, which is what [float] skips: TAB, LF,
    VT, FF, CR and the space. *)
Definition is_c_space (c : ascii) : bool :=
  let n := code c in ((9 <=? n) && (n <=? 13) || (n =? 32))%N.

Fixpoint lstrip (space : ascii -> bool) (l : list ascii) : list ascii :=
  match l with
  | c :: rest => if space c then lstrip space rest else l
  | [] => []
  end.

Definition rstrip (space : ascii -> bool) (l : list ascii) : list ascii :=
  rev (lstrip space (rev l)).

(** [s.strip()] *)
Definition strip (s : string) : string :=
  text (rstrip is_space (lstrip is_space (chars s))).

(** [s.replace(c, "")] for a one-character [c]. *)
Definition remove_char (c : ascii) (s : string) : string :=
  text (filter (fun x => x <> c) (chars s)).

Fixpoint starts_with (p l : list ascii) : bool :=
  match p, l with
  | [], _ => true
  | a :: p', b :: l' => if decide (a = b) then starts_with p' l' else false
  | _ :: _, [] => false
  end.

(** [s.endswith(suffix)] *)
Definition endswith (s suffix : string) : bool :=
  starts_with (rev (chars suffix)) (rev (chars s)).

Definition Z_to_string (z : Z) : string := NilZero.string_of_int (Z.to_int z).

(** Decimal digits of a natural number, padded with zeros on the left to
    at least [width] characters ([%02d], [%04d]). *)
Definition zero_pad (width : nat) (z : Z) : string :=
  let s := Z_to_string z in
  text (replicate (width - String.length s) "0"%char) ++ s.

(** ** Floats

    A Python float is an IEEE binary64 value: not-a-number, an infinity,
    or [(-1)^neg * m * 2^e] with [0 <= m < 2^53] and [-1074 <= e]. *)

Inductive PyFloat : Type :=
| FNaN
| FInf (neg : bool)
| FFin (neg : bool) (m : Z) (e : Z).

(** [x >= 0]: false for nan, true for both zeros. *)
Definition float_ge0 (x : PyFloat) : bool :=
  match x with
  | FNaN => false
  | FInf neg => negb neg
  | FFin neg m _ => negb neg || (m =? 0)
  end.

(** [n / d] rounded to the nearest integer, ties to even ([0 < d]). *)
Definition round_half_even (n d : Z) : Z :=
  let q := n / d in
  let r := n mod d in
  if 2 * r <? d then q
  else if d <? 2 * r then q + 1
  else if Z.even q then q else q + 1.

(** [num * 2^(-e) / den] rounded to the nearest integer, ties to even. *)
Definition scaled_round (num den e : Z) : Z :=
  if 0 <=? e then round_half_even num (den * 2 ^ e)
  else round_half_even (num * 2 ^ (- e)) den.

(** [den * 2^k <= num] *)
Definition pow2_le (den k num : Z) : bool :=
  if 0 <=? k then den * 2 ^ k <=? num else den <=? num * 2 ^ (- k).

(** The binary64 value nearest to [num / den] (ties to even), for
    [0 <= num] and [0 < den]: what the runtime's correctly rounded
    string-to-double conversion computes.  Values past the largest finite
    double become an infinity, values below half the smallest subnormal
    become zero. *)
Definition binary64_round (neg : bool) (num den : Z) : PyFloat :=
  if num =? 0 then FFin neg 0 0
  else
    let l := Z.log2 num - Z.log2 den in
    let k := if pow2_le den l num then l else l - 1 in
    let e := Z.max (k - 52) (-1074) in
    let m := scaled_round num den e in
    if (0 <=? e) && (2 ^ 1024 <=? m * 2 ^ e) then FInf neg
    else if m =? 2 ^ 53 then FFin neg (2 ^ 52) (e + 1)
    else FFin neg m e.

(** *** [float(s)] *)

Fixpoint span_digits (l : list ascii) : list ascii * list ascii :=
  match l with
  | c :: rest =>
      if is_digit c then let '(d, r) := span_digits rest in (c :: d, r)
      else ([], l)
  | [] => ([], [])
  end.

Definition digits_value (d : list ascii) : Z :=
  fold_left (fun acc c => 10 * acc + digit_val c) d 0.

(** Underscores of a numeric literal: each must sit between two digits.
    [prev] is the character before [l]; the result is the literal with
    its underscores removed, or [None] where the runtime raises. *)
Fixpoint drop_underscores (prev : option ascii) (l : list ascii)
  : option (list ascii) :=
  match l with
  | [] => if decide (prev = Some "_"%char) then None else Some []
  | c :: rest =>
      if decide (c = "_"%char) then
        match prev with
        | Some p => if is_digit p then drop_underscores (Some c) rest else None
        | None => None
        end
      else if bool_decide (prev = Some "_"%char) && negb (is_digit c) then None
      else cons c <$> drop_underscores (Some c) rest
  end.

Definition take_sign (l : list ascii) : bool * list ascii :=
  match l with
  | "-"%char :: rest => (true, rest)
  | "+"%char :: rest => (false, rest)
  | _ => (false, l)
  end.

(** The optional exponent part: [e] or [E], an optional sign, at least
    one digit.  Returns the exponent and what follows it; an incomplete
    exponent is not consumed. *)
Definition take_exponent (l : list ascii) : Z * list ascii :=
  match l with
  | c :: rest =>
      if decide (lower_char c = "e"%char) then
        let '(neg, rest') := take_sign rest in
        let '(d, rest'') := span_digits rest' in
        match d with
        | [] => (0, l)
        | _ => ((if neg then - digits_value d else digits_value d), rest'')
        end
      else (0, l)
  | [] => (0, [])
  end.

(** A decimal literal: digits, an optional point and more digits, at
    least one digit in all, an optional exponent, and nothing after. *)
Definition parse_decimal (neg : bool) (l : list ascii) : option PyFloat :=
  let '(ip, r1) := span_digits l in
  let '(fp, r2) :=
    match r1 with
    | "."%char :: r => span_digits r
    | _ => ([], r1)
    end in
  match (ip ++ fp)%list with
  | [] => None
  | ds =>
      let '(ex, r3) := take_exponent r2 in
      match r3 with
      | [] =>
          let n := digits_value ds in
          let x := ex - Z.of_nat (length fp) in
          Some (if 0 <=? x then binary64_round neg (n * 10 ^ x) 1
                else binary64_round neg n (10 ^ (- x)))
      | _ => None
      end
  end.

(** [inf], [infinity] and [nan], in any letter case. *)
Definition parse_inf_or_nan (neg : bool) (l : list ascii) : option PyFloat :=
  let w := text (map lower_char l) in
  if bool_decide (w = "inf") || bool_decide (w = "infinity") then Some (FInf neg)
  else if decide (w = "nan") then Some FNaN
  else None.

(** [float(s)] for a string [s]: underscores between digits are dropped,
    surrounding C whitespace is ignored, and the rest must be a signed
    decimal literal, an infinity or a nan; anything else raises
    [ValueError]. *)
Definition py_float (s : string) : Exc PyFloat :=
  match drop_underscores None (chars s) with
  | None => Raise ValueError
  | Some l =>
      let '(neg, body) := take_sign (rstrip is_c_space (lstrip is_c_space l)) in
      match parse_decimal neg body with
      | Some x => Ret x
      | None =>
          match parse_inf_or_nan neg body with
          | Some x => Ret x
          | None => Raise ValueError
          end
      end
  end.

(** *** [f"{x:.2f}"] *)

(** The exact value of a finite float times one hundred, rounded to the
    nearest integer, ties to even. *)
Definition hundredths (m e : Z) : Z :=
  if 0 <=? e then m * 2 ^ e * 100 else round_half_even (m * 100) (2 ^ (- e)).

Definition fixed2 (neg : bool) (h : Z) : string :=
  (if neg then "-" else "") ++ Z_to_string (h / 100) ++ "." ++ zero_pad 2 (h mod 100).

Definition format_2f (x : PyFloat) : string :=
  match x with
  | FNaN => "nan"
  | FInf neg => if neg then "-inf" else "inf"
  | FFin neg m e => fixed2 neg (hundredths m e)
  end.

(** *** [repr(x)]: the shortest decimal string that reads back as [x] *)

(** Rationals as pairs of a numerator and a positive denominator. *)
Definition Rat : Type := Z * Z.

Definition rat_compare (a b : Rat) : comparison :=
  (fst a * snd b ?= fst b * snd a).

(** [d * 10^q] *)
Definition decimal (d q : Z) : Rat :=
  if 0 <=? q then (d * 10 ^ q, 1) else (d, 10 ^ (- q)).

(** [n * 2^e] *)
Definition binary (n e : Z) : Rat :=
  if 0 <=? e then (n * 2 ^ e, 1) else (n, 2 ^ (- e)).

(** The least [j >= 1] with [1 <= v * 10^j], for [0 < v < 1]. *)
Fixpoint leading_zeros (fuel : nat) (j : Z) (v : Rat) : Z :=
  match fuel with
  | O => j
  | S fuel' =>
      if snd v <=? fst v * 10 ^ j then j else leading_zeros fuel' (j + 1) v
  end.

(** The [k] with [10^(k-1) <= v < 10^k], for [0 < v]. *)
Definition decimal_point (v : Rat) : Z :=
  if snd v <=? fst v then Z.of_nat (String.length (Z_to_string (fst v / snd v)))
  else 1 - leading_zeros 400 1 v.

(** Does the decimal [c] read back as [m * 2^e]?  The doubles next to
    [m * 2^e] are one unit in the last place away, except below a power of
    two, where the lower neighbour is half as far; a decimal exactly half
    way reads back as the neighbour with the even significand. *)
Definition reads_back (m e : Z) (c : Rat) : bool :=
  let below := if (m =? 2 ^ 52) && (-1074 <? e) then 1 else 2 in
  let lo := binary (4 * m - below) (e - 2) in
  let hi := binary (4 * m + 2) (e - 2) in
  match rat_compare lo c, rat_compare c hi with
  | Lt, Lt => true
  | Eq, (Lt | Eq) | Lt, Eq => Z.even m
  | _, _ => false
  end.

(** The significand [d] of the [n]-digit decimal [d * 10^(k-n)] that
    reads back as [m * 2^e], nearest to it when there are two. *)
Definition digits_at (m e k : Z) (n : Z) : option Z :=
  let q := k - n in
  let v := binary m e in
  let d0 :=
    if 0 <=? q then fst v / (snd v * 10 ^ q) else fst v * 10 ^ (- q) / snd v in
  let d1 := d0 + 1 in
  let ok0 := reads_back m e (decimal d0 q) in
  let ok1 := reads_back m e (decimal d1 q) in
  match ok0, ok1 with
  | false, false => None
  | true, false => Some d0
  | false, true => Some d1
  | true, true =>
      match rat_compare (binary (2 * m) e) (decimal (2 * d0 + 1) q) with
      | Lt => Some d0
      | Gt => Some d1
      | Eq => Some (if Z.even d0 then d0 else d1)
      end
  end.

(** Shortest first: one digit, then two, ... (seventeen always do). *)
Fixpoint shortest_digits (fuel : nat) (m e k n : Z) : Z * Z :=
  match fuel with
  | O => (0, n)
  | S fuel' =>
      match digits_at m e k n with
      | Some d => (d, n)
      | None => shortest_digits fuel' m e k (n + 1)
      end
  end.

Definition zeros (n : Z) : string := text (replicate (Z.to_nat n) "0"%char).

(** [repr] of a positive finite float: positional notation when the
    decimal point falls within the digits or at most three zeros before
    and sixteen places in all, and exponent notation otherwise. *)
Definition repr_positive (m e : Z) : string :=
  let k := decimal_point (binary m e) in
  let '(d, n) := shortest_digits 17 m e k 1 in
  (* [d = 10^n] when the digits rounded up to the next power of ten *)
  let '(ds, decpt) :=
    if d =? 10 ^ n then ("1", k + 1) else (Z_to_string d, k) in
  let nd := Z.of_nat (String.length ds) in
  if (decpt <=? -4) || (16 <? decpt) then
    let x := decpt - 1 in
    substring 0 1 ds
    ++ (if 1 <? nd then "." ++ substring 1 (Z.to_nat (nd - 1)) ds else "")
    ++ "e" ++ (if x <? 0 then "-" else "+") ++ zero_pad 2 (Z.abs x)
  else if decpt <=? 0 then "0." ++ zeros (- decpt) ++ ds
  else if nd <=? decpt then ds ++ zeros (decpt - nd) ++ ".0"
  else substring 0 (Z.to_nat decpt) ds ++ "."
       ++ substring (Z.to_nat decpt) (Z.to_nat (nd - decpt)) ds.

(** [str(x)] for a float [x]. *)
Definition float_repr (x : PyFloat) : string :=
  match x with
  | FNaN => "nan"
  | FInf neg => if neg then "-inf" else "inf"
  | FFin neg m e =>
      (if neg then "-" else "") ++ (if m =? 0 then "0.0" else repr_positive m e)
  end.

(** ** Cells

    What the readers put in a frame read with [header=None]: text, an
    integer, or a float.  An empty spreadsheet cell is the float nan. *)

Inductive Cell : Type :=
| CStr (s : string)
| CInt (z : Z)
| CFloat (x : PyFloat).

Definition nan : Cell := CFloat FNaN.

(** [str(val)] *)
Definition py_str (val : Cell) : string :=
  match val with
  | CStr s => s
  | CInt z => Z_to_string z
  | CFloat x => float_repr x
  end.

(** [pd.notna(val)] and [pd.isna(val)] *)
Definition notna (val : Cell) : bool :=
  match val with
  | CFloat FNaN => false
  | _ => true
  end.

Definition isna (val : Cell) : bool := negb (notna val).

(** [str(val).strip() != ""] *)
Definition strip_nonempty (val : Cell) : bool :=
  negb (bool_decide (strip (py_str val) = "")).

(** ** Calendar dates, [datetime.strptime] and [strftime] *)

Record Date : Type := mkDate { year : Z; month : Z; day : Z }.

Definition is_leap (y : Z) : bool :=
  ((y mod 4 =? 0) && negb (y mod 100 =? 0)) || (y mod 400 =? 0).

Definition days_in_month (y m : Z) : Z :=
  if m =? 2 then (if is_leap y then 29 else 28)
  else if (m =? 4) || (m =? 6) || (m =? 9) || (m =? 11) then 30
  else 31.

(** The check of the [datetime] constructor: years 1 to 9999, months 1
    to 12, and a day the month has. *)
Definition valid_date (d : Date) : bool :=
  (1 <=? year d) && (year d <=? 9999)
  && (1 <=? month d) && (month d <=? 12)
  && (1 <=? day d) && (day d <=? days_in_month (year d) (month d)).

(** [d.strftime("%d/%m/%Y")]: the day and the month with two digits, the
    year in decimal as it is, so with fewer than four digits before the
    year 1000. *)
Definition strftime_dmy (d : Date) : string :=
  zero_pad 2 (day d) ++ "/" ++ zero_pad 2 (month d) ++ "/" ++ Z_to_string (year d).

(** The directives of a [strptime] format. *)
Inductive Directive : Type :=
| Dd              (* %d *)
| Dm              (* %m *)
| DY              (* %Y *)
| Db              (* %b *)
| Lit (c : ascii) (* any other character *)
| Spaces          (* a run of whitespace in the format *)
| Bad.            (* an unknown or incomplete directive *)

Fixpoint directives (fmt : list ascii) : list Directive :=
  match fmt with
  | [] => []
  | "%"%char :: c :: rest =>
      (if decide (c = "d"%char) then Dd
       else if decide (c = "m"%char) then Dm
       else if decide (c = "Y"%char) then DY
       else if decide (c = "b"%char) then Db
       else Bad) :: directives rest
  | c :: rest =>
      if decide (c = "%"%char) then Bad :: directives rest
      else if is_space c then
        match directives rest with
        | Spaces :: ds => Spaces :: ds
        | ds => Spaces :: ds
        end
      else Lit c :: directives rest
  end.

(** One way a directive can match: the date it gives, and the input left. *)
Definition Match : Type := (Date -> Date) * list ascii.

Definition between (lo hi : ascii) (c : ascii) : bool :=
  ((code lo <=? code c) && (code c <=? code hi))%N.

Definition int_of (l : list ascii) : Z := digits_value (filter is_digit l).

Definition one (p : ascii -> bool) (set : Z -> Date -> Date)
    (l : list ascii) : list Match :=
  match l with
  | a :: rest => if p a then [(set (int_of [a]), rest)] else []
  | _ => []
  end.

Definition two (p q : ascii -> bool) (set : Z -> Date -> Date)
    (l : list ascii) : list Match :=
  match l with
  | a :: b :: rest => if p a && q b then [(set (int_of [a; b]), rest)] else []
  | _ => []
  end.

Definition set_day (v : Z) (d : Date) : Date := mkDate (year d) (month d) v.
Definition set_month (v : Z) (d : Date) : Date := mkDate (year d) v (day d).
Definition set_year (v : Z) (d : Date) : Date := mkDate v (month d) (day d).

Definition month_names : list string :=
  ["jan"; "feb"; "mar"; "apr"; "may"; "jun";
   "jul"; "aug"; "sep"; "oct"; "nov"; "dec"].

(** The alternatives of each directive, in the order the format's regular
    expression tries them:
    [%d] is [3[0-1]|[1-2]\d|0[1-9]|[1-9]| [1-9]],
    [%m] is [1[0-2]|0[1-9]|[1-9]], [%Y] is [\d\d\d\d], [%b] is one of the
    month abbreviations in any letter case, and whitespace in the format
    is [\s+], longest run first. *)
Fixpoint space_runs (l : list ascii) : list (list ascii) :=
  match l with
  | c :: rest => if is_space c then (space_runs rest ++ [rest])%list else []
  | [] => []
  end.

Definition alternatives (dir : Directive) (l : list ascii) : list Match :=
  match dir with
  | Dd =>
      (two (between "3" "3") (between "0" "1") set_day l
       ++ two (between "1" "2") is_digit set_day l
       ++ two (between "0" "0") (between "1" "9") set_day l
       ++ one (between "1" "9") set_day l
       ++ two (between " " " ") (between "1" "9") set_day l)%list
  | Dm =>
      (two (between "1" "1") (between "0" "2") set_month l
       ++ two (between "0" "0") (between "1" "9") set_month l
       ++ one (between "1" "9") set_month l)%list
  | DY =>
      match l with
      | a :: b :: c :: d :: rest =>
          if is_digit a && is_digit b && is_digit c && is_digit d
          then [(set_year (int_of [a; b; c; d]), rest)] else []
      | _ => []
      end
  | Db =>
      omap (fun '(i, nm) =>
              if starts_with (chars nm) (map lower_char l)
              then Some (set_month (Z.of_nat i + 1), drop 3 l) else None)
           (imap pair month_names)
  | Lit c =>
      match l with
      | a :: rest =>
          if decide (lower_char a = lower_char c) then [(id, rest)] else []
      | [] => []
      end
  | Spaces => (fun rest => (id, rest)) <$> space_runs l
  | Bad => []
  end.

Fixpoint first_some {A B} (f : A -> option B) (l : list A) : option B :=
  match l with
  | [] => None
  | x :: rest =>
      match f x with
      | Some y => Some y
      | None => first_some f rest
      end
  end.

(** The first way, in that order, of matching the whole format against a
    prefix of the input. *)
Fixpoint match_format (ds : list Directive) (l : list ascii) (acc : Date)
  : option (Date * list ascii) :=
  match ds with
  | [] => Some (acc, l)
  | dir :: ds' =>
      first_some (fun '(set, rest) => match_format ds' rest (set acc))
                 (alternatives dir l)
  end.

(** [datetime.strptime(s, fmt)]: the format must match a prefix of [s],
    nothing may be left over, and the fields must make a date; otherwise
    [ValueError].  Fields the format does not set are 1 January 1900. *)
Definition strptime (s fmt : string) : Exc Date :=
  match match_format (directives (chars fmt)) (chars s) (mkDate 1900 1 1) with
  | Some (d, []) => if valid_date d then Ret d else Raise ValueError
  | _ => Raise ValueError
  end.

(** ** Frames and the runtime interface *)

(** The uploaded file: its name and its bytes. *)
Record UploadedFile : Type := mkFile { name : string; content : string }.

(** The dtype of a column, among those the readers give to columns of
    text, integer and float cells: [object] and [str] columns hold text,
    the two numeric ones do not.  A column without any text cell, an
    empty one for instance, is numeric. *)
Inductive Dtype : Type :=
| object_
| str_
| float64
| int64.

Definition holds_text (dtype : Dtype) : bool :=
  match dtype with
  | object_ | str_ => true
  | float64 | int64 => false
  end.

(** A frame read with [header=None]: one dtype per column, and each row
    holds one cell per column. *)
Record DataFrame : Type := mkFrame { dtypes : list Dtype; rows : list (list Cell) }.

(** [df.shape[1]] *)
Definition ncols (df : DataFrame) : nat := length (dtypes df).

Definition rectangular (df : DataFrame) : Prop :=
  Forall (fun r => length r = ncols df) (rows df).

(** What [process_file] calls and this file does not compute.  A reader
    returns the frame it parsed or raises (on a file of zero bytes, for
    one).  [to_datetime val] is [pd.to_datetime(val, dayfirst=True,
    errors="coerce")]: [Ret (Some d)] is a timestamp on day [d],
    [Ret None] is [NaT]. *)
Class Runtime : Type := {
  read_csv : UploadedFile -> Exc DataFrame;
  read_excel : UploadedFile -> Exc DataFrame;
  to_datetime : Cell -> Exc (option Date)
}.

(** [df.empty]: some axis has length zero. *)
Definition empty (df : DataFrame) : bool :=
  bool_decide (rows df = []) || bool_decide (ncols df = 0%nat).

(** [df.iloc[n:].reset_index(drop=True)] *)
Definition iloc_from (n : nat) (df : DataFrame) : DataFrame :=
  mkFrame (dtypes df) (drop n (rows df)).

(** [df.iloc[:, j]] *)
Definition column (j : nat) (df : DataFrame) : list Cell :=
  (fun r => default nan (r !! j)) <$> rows df.

(** The four-column frame [df.iloc[:, [0, 2, 3, 13]]], column by column,
    with the dtype of its first column. *)
Record Selected : Type := mkSelected {
  dtypeA : Dtype;
  colA : list Cell;
  colC : list Cell;
  colD : list Cell;
  colN : list Cell
}.

(** The dtype of column [j] ([df.dtypes[j]]). *)
Definition column_dtype (j : nat) (df : DataFrame) : Dtype :=
  default object_ (dtypes df !! j).

Definition select_columns (df : DataFrame) : Selected :=
  mkSelected (column_dtype 0 df)
             (column 0 df) (column 2 df) (column 3 df) (column 13 df).

(** [df.empty] for the four-column frame. *)
Definition no_rows (df : Selected) : bool := bool_decide (colA df = []).

(** The two assignments of step 4, on the first column.
    [df.iloc[1:, 0] = df.iloc[:-1, 0].values] writes cells of the column
    into the column.  [df.iloc[0, 0] = ""] writes a text: there must be a
    first row, and the dtype of the column must hold text. *)
Definition shift_down (dtype : Dtype) (col : list Cell) : Exc (list Cell) :=
  let moved := (take 1 col ++ take (length col - 1) col)%list in
  match moved with
  | [] => Raise IndexError
  | _ :: _ =>
      if holds_text dtype then Ret (<[0%nat := CStr ""]> moved)
      else Raise TypeError
  end.

(** Step 4: [if not df.empty:] and the two assignments. *)
Definition shift_column_A (df : Selected) : Exc Selected :=
  if no_rows df then Ret df
  else
    col ← shift_down (dtypeA df) (colA df);
    Ret (mkSelected (dtypeA df) col (colC df) (colD df) (colN df)).

(** Step 9: the loop over [range(len(output))], reading and writing
    [output.iloc[i, 0]].  What it writes is the empty string or a cell of
    the column that is not blank, which a column that went through step 4
    holds. *)
Definition nonblank (val : Cell) : bool := notna val && strip_nonempty val.

Fixpoint fill_loop (range : list nat) (debtor_ref : Cell) (col : list Cell)
  : list Cell :=
  match range with
  | [] => col
  | i :: rest =>
      let val := default nan (col !! i) in
      if nonblank val then fill_loop rest val col
      else fill_loop rest debtor_ref (<[i := debtor_ref]> col)
  end.

Definition forward_fill (col : list Cell) : list Cell :=
  fill_loop (seq 0 (length col)) (CStr "") col.

(** [str(val).replace(",", "").replace("$", "")] *)
Definition unformatted (val : Cell) : string :=
  remove_char "$" (remove_char "," (py_str val)).

(** Step 10 *)
Definition determine_doc_type (balance : Cell) : Exc string :=
  try_except
    (balance_val ← py_float (unformatted balance);
     Ret (if float_ge0 balance_val then "INV" else "CRD"))
    (Ret "INV").

(** Step 12 *)
Definition format_balance (val : Cell) : Exc string :=
  try_except
    (x ← py_float (unformatted val);
     Ret (format_2f x))
    (Ret "0.00").

(** Step 13 *)
Definition date_formats : list string :=
  ["%d/%m/%Y"; "%Y-%m-%d"; "%d-%m-%Y"; "%m/%d/%Y"; "%Y/%m/%d";
   "%d-%b-%Y"; "%d %b %Y"].

(** The [for fmt in (...)] loop: [return] on the first format that
    parses, [continue] on an exception, [after] when the loop ends. *)
Fixpoint for_formats (val : Cell) (fmts : list string) (after : Exc string)
  : Exc string :=
  match fmts with
  | [] => after
  | fmt :: rest =>
      try_except
        (d ← strptime (py_str val) fmt; Ret (strftime_dmy d))
        (for_formats val rest after)
  end.

(** ** The result of [process_file] *)

(** The three [st.error(...)] followed by [return None]. *)
Inductive Reported : Type :=
| UnsupportedFormat
| EmptyInput
| InsufficientColumns.

Definition message (e : Reported) : string :=
  match e with
  | UnsupportedFormat => "Unsupported file format. Please upload a CSV or Excel file."
  | EmptyInput => "The uploaded file is empty."
  | InsufficientColumns => "Input file must have at least 14 columns to process."
  end.

(** One row of [output], under its five column names. *)
Record NormalizedRecord : Type := mkRecord {
  debtor_reference : Cell;
  document_number : Cell;
  document_date : string;
  document_balance : string;
  document_type : string
}.

Inductive Outcome : Type :=
| Rejected (e : Reported)
| Normalized (output : list NormalizedRecord).

(** The rows of a frame given by its five columns. *)
Fixpoint records (ref num : list Cell) (date bal typ : list string)
  : list NormalizedRecord :=
  match ref, num, date, bal, typ with
  | r :: ref', n :: num', d :: date', b :: bal', t :: typ' =>
      mkRecord r n d b t :: records ref' num' date' bal' typ'
  | _, _, _, _, _ => []
  end.

(** The mask of the final filter: both key columns are not missing and
    not blank. *)
Definition essential (r : NormalizedRecord) : bool :=
  nonblank (debtor_reference r) && nonblank (document_number r).

Section Pipeline.

Context {rt : Runtime}.

(** The fallback block: [Some s] when it returns [s], [None] when control
    leaves the [try] without returning. *)
Definition pandas_fallback (val : Cell) : Exc (option string) :=
  try_except
    (parsed_date ← to_datetime val;
     Ret (match parsed_date : option Date with
          | Some d => Some (strftime_dmy d)
          | None => None
          end))
    (Ret None).

Definition parse_date (val : Cell) : Exc string :=
  if isna val || bool_decide (strip (py_str val) = "") then Ret ""
  else
    for_formats val date_formats
      (r ← pandas_fallback val;
       match r with
       | Some s => Ret s
       | None => Ret (py_str val)
       end).

(** Steps 9 to 13 on a non-empty frame: the five columns of [output]
    before the final filter. *)
Definition derive (df : Selected) : Exc (list NormalizedRecord) :=
  let debtor := forward_fill (colA df) in
  types ← apply determine_doc_type (colN df);
  balances ← apply format_balance (colN df);
  dates ← apply parse_date (colD df);
  Ret (records debtor (colC df) dates balances types).

(** [process_file] from the moment the frame is read. *)
Definition process_frame (df : DataFrame) : Exc Outcome :=
  if empty df then Ret (Rejected EmptyInput)
  else
    let df := iloc_from 13 df in
    if (ncols df <? 14)%nat then Ret (Rejected InsufficientColumns)
    else
      df ← shift_column_A (select_columns df);
      if no_rows df then Ret (Normalized [])
      else
        output ← derive df;
        Ret (Normalized (filter essential output)).

Definition process_file (file : UploadedFile) : Exc Outcome :=
  let lowered := lower (name file) in
  if endswith lowered ".csv" then df ← read_csv file; process_frame df
  else if endswith lowered ".xls" || endswith lowered ".xlsx"
  then df ← read_excel file; process_frame df
  else Ret (Rejected UnsupportedFormat).

(** What the reader for the file's extension does. *)
Definition read (file : UploadedFile) : Exc DataFrame :=
  if endswith (lower (name file)) ".csv" then read_csv file else read_excel file.

End Pipeline.

(** ** Vocabulary of the properties *)

Definition raises {A} (c : Exc A) : Prop := exists e, c = Raise e.

(** The reference the loop holds after it has gone through [seen],
    starting from [cur]. *)
Definition running_from (cur : Cell) (seen : list Cell) : Cell :=
  fold_left (fun ref val => if nonblank val then val else ref) seen cur.

Definition running_reference (seen : list Cell) : Cell :=
  running_from (CStr "") seen.

(** What the loop leaves in the column, written by recursion on it. *)
Fixpoint filled (cur : Cell) (col : list Cell) : list Cell :=
  match col with
  | [] => []
  | val :: rest =>
      if nonblank val then val :: filled val rest else cur :: filled cur rest
  end.

(** The columns of a frame selected from a frame all have its number of
    rows. *)
Definition aligned (df : Selected) : Prop :=
  length (colC df) = length (colA df)
  /\ length (colD df) = length (colA df)
  /\ length (colN df) = length (colA df).

(** The file name ends, letter case apart, in one of the three
    extensions. *)
Definition has_extension (file : UploadedFile) : Prop :=
  exists stem ext,
    ext ∈ [".csv"; ".xls"; ".xlsx"] /\ lower (name file) = stem ++ ext.

Definition supported (file : UploadedFile) : bool :=
  let lowered := lower (name file) in
  endswith lowered ".csv" || endswith lowered ".xls" || endswith lowered ".xlsx".

(** Steps 2 to 4: rows trimmed, columns selected, first column shifted.
    When it returns, it returns the frame steps 9 to 13 work on. *)
Definition prepared (df : DataFrame) : Exc Selected :=
  shift_column_A (select_columns (iloc_from 13 df)).

(** The first column after a step 4 that returned: the empty string, then
    the cells of the column but the last. *)
Definition shifted (col : list Cell) : list Cell :=
  <[0%nat := CStr ""]> (take 1 col ++ take (length col - 1) col)%list.

(** A cell that a column of the dtype can hold, and a frame whose rows
    have one such cell per column. *)
Definition fits (dtype : Dtype) (val : Cell) : bool :=
  match dtype, val with
  | object_, _ => true
  | str_, CStr _ => true
  | str_, CFloat FNaN => true
  | float64, CFloat _ => true
  | int64, CInt _ => true
  | _, _ => false
  end.

Definition well_typed (df : DataFrame) : bool :=
  forallb (fun r => bool_decide (length r = ncols df)
                    && forallb (fun tv => fits tv.1 tv.2) (zip (dtypes df) r))
          (rows df).

(** Two digits, a slash, two digits, a slash, four digits. *)
Definition is_dmy (s : string) : bool :=
  match chars s with
  | [d1; d2; s1; m1; m2; s2; y1; y2; y3; y4] =>
      is_digit d1 && is_digit d2 && bool_decide (s1 = "/"%char)
      && is_digit m1 && is_digit m2 && bool_decide (s2 = "/"%char)
      && is_digit y1 && is_digit y2 && is_digit y3 && is_digit y4
  | _ => false
  end.

Definition all_digits (width : nat) (s : string) : bool :=
  bool_decide (length (chars s) = width) && forallb is_digit (chars s).

(** ** Sample ledgers and runtimes *)

Definition header_row : list Cell := replicate 14 (CStr "Redpath").

(** A row with the four cells of interest in columns A, C, D and N. *)
Definition ledger_row (a c d n : Cell) : list Cell :=
  ([a; nan; c; d] ++ replicate 9 nan ++ [n])%list.

Definition sample_rows : list (list Cell) :=
  [ ledger_row (CStr "D1") nan nan nan;
    ledger_row nan (CStr "N1") (CStr "2024-01-15") (CStr "100");
    ledger_row (CStr "D2") (CStr "N2") (CStr "15-Jan-2024") (CStr "-20");
    ledger_row nan (CStr "N3") (CStr "soon") (CStr "1,234.5");
    ledger_row nan nan nan nan ].

Definition sample_frame : DataFrame :=
  mkFrame (replicate 14 str_) (replicate 13 header_row ++ sample_rows).

(** A runtime whose readers find the sample ledger in every file and
    whose fallback parser recognises no date. *)
Definition sample_runtime : Runtime :=
  {| read_csv := fun _ => Ret sample_frame;
     read_excel := fun _ => Ret sample_frame;
     to_datetime := fun _ => Ret None |}.

Definition sample_file : UploadedFile := mkFile "Ledger.CSV" "".

(** A runtime whose fallback parser raises on every value. *)
Definition raising_runtime : Runtime :=
  {| read_csv := fun _ => Ret sample_frame;
     read_excel := fun _ => Ret sample_frame;
     to_datetime := fun _ => Raise (OtherError "DateParseError") |}.

(** A ledger whose second invoice has no balance. *)
Definition ledger_with_blank_balance : DataFrame :=
  mkFrame (replicate 14 str_)
    (replicate 13 header_row
     ++ [ ledger_row (CStr "D1") nan nan nan;
          ledger_row nan (CStr "N1") (CStr "15/01/2024") (CStr "100");
          ledger_row nan (CStr "N2") (CStr "16/01/2024") nan ]).

(** A file of thirteen header rows and two data rows. *)
Definition two_row_frame : DataFrame :=
  mkFrame (replicate 14 str_)
    (replicate 13 header_row
     ++ [ ledger_row (CStr "D1") (CStr "N1") (CStr "15/01/2024") (CStr "100");
          ledger_row nan (CStr "N2") (CStr "16/01/2024") (CStr "-20") ]).

Definition two_row_runtime : Runtime :=
  {| read_csv := fun _ => Ret two_row_frame;
     read_excel := fun _ => Ret two_row_frame;
     to_datetime := fun _ => Ret None |}.

(** A file of thirteen header rows and two data rows whose first column
    is empty from top to bottom: the readers give such a column the dtype
    [float64]. *)
Definition frame_without_references : DataFrame :=
  mkFrame (float64 :: replicate 13 str_)
    (replicate 13 (nan :: replicate 13 (CStr "Redpath"))
     ++ [ ledger_row nan (CStr "N1") (CStr "15/01/2024") (CStr "100");
          ledger_row nan (CStr "N2") (CStr "16/01/2024") (CStr "-20") ]).

Definition runtime_without_references : Runtime :=
  {| read_csv := fun _ => Ret frame_without_references;
     read_excel := fun _ => Ret frame_without_references;
     to_datetime := fun _ => Ret None |}.

(** A runtime whose readers raise, as [pd.read_csv] does on a file of
    zero bytes. *)
Definition failing_reader_runtime : Runtime :=
  {| read_csv := fun _ => Raise (OtherError "EmptyDataError");
     read_excel := fun _ => Raise (OtherError "EmptyDataError");
     to_datetime := fun _ => Ret None |}.

(** ** Vocabulary of the further properties *)

(** The last cell of [seen] that is present and not blank, if any. *)
Definition last_nonblank (seen : list Cell) : option Cell :=
  last (filter (fun val => nonblank val) seen).

(** The sample ledger under other headers (numbers, which make every
    column an [object] column), with other cells in the columns that are
    not selected, another last cell in column A and other first cells in
    columns C, D and N. *)
Definition sample_frame_variant : DataFrame :=
  mkFrame (replicate 15 object_)
    (replicate 13 (replicate 15 (CInt 7))
     ++ [ [CStr "D1"; CStr "b"; CStr "x"; CStr "y"] ++ replicate 9 (CInt 0)
            ++ [CStr "z"; nan];
          [nan; CStr "b"; CStr "N1"; CStr "2024-01-15"] ++ replicate 9 (CInt 0)
            ++ [CStr "100"; nan];
          [CStr "D2"; nan; CStr "N2"; CStr "15-Jan-2024"] ++ replicate 9 nan
            ++ [CStr "-20"; CStr "t"];
          [nan; nan; CStr "N3"; CStr "soon"] ++ replicate 9 nan
            ++ [CStr "1,234.5"; nan];
          [CStr "D9"; nan; nan; nan] ++ replicate 9 nan ++ [nan; nan] ])%list.

(** The trimmed frame with each row's cells of columns C, D and N next
    to the cell of column A of the row above: column A without its last
    cell, the other three columns without their first. *)
Definition realigned (df : DataFrame) : Selected :=
  let trimmed := iloc_from 13 df in
  mkSelected (column_dtype 0 df)
             (take (length (rows trimmed) - 1) (column 0 trimmed))
             (drop 1 (column 2 trimmed))
             (drop 1 (column 3 trimmed))
             (drop 1 (column 13 trimmed)).

(** Two four-column frames with the same cells, whatever the dtype of
    their first column. *)
Definition same_cells (df1 df2 : Selected) : Prop :=
  colA df1 = colA df2 /\ colC df1 = colC df2
  /\ colD df1 = colD df2 /\ colN df1 = colN df2.

(** The four digits written for a year read back as that year. *)
Definition year_reads_back (y : Z) : bool :=
  all_digits 4 (zero_pad 4 y) && (int_of (chars (zero_pad 4 y)) =? y).

(** ** The page

    The script runs from top to bottom on every interaction; each call
    into the page library adds one element to the page, in call order. *)

Inductive Element : Type :=
| PageConfig (page_title : string)
| Title (body : string)
| Write (body : string)
| FileUploader (label : string) (type : list string)
| Error (body : string)
| Dataframe (data : list NormalizedRecord)
| DownloadButton (label : string) (data : string) (file_name mime : string).

(** The elements before the upload is looked at. *)
Definition page_top : list Element :=
  [ PageConfig "GSD-222: Redpath";
    Title "GSD-222: Redpath";
    Write "Upload your Excel or CSV file for Redpath processing:";
    FileUploader "Choose a file" ["csv"; "xlsx"; "xls"] ].

Section Page.

Context {rt : Runtime}.

(** [df.to_csv(index=False)], the CSV text of a table. *)
Variable to_csv : list NormalizedRecord -> string.

(** [io.BytesIO(csv.encode())]: the bytes of the CSV text. *)
Definition get_csv_download_link (df : list NormalizedRecord) : string :=
  to_csv df.

(** The script, given what [st.file_uploader] returned.  The
    [st.error] of a rejection inside [process_file] comes before the one
    of the script. *)
Definition script (uploaded_file : option UploadedFile) : Exc (list Element) :=
  match uploaded_file with
  | None => Ret page_top
  | Some file =>
      processed_df ← process_file file;
      match processed_df with
      | Normalized df =>
          let csv_buffer := get_csv_download_link df in
          Ret (page_top
               ++ [ Write "Processed Data:";
                    Dataframe df;
                    DownloadButton "Download Processed File" csv_buffer
                                   "redpath_upload.csv" "text/csv" ])%list
      | Rejected e =>
          Ret (page_top
               ++ [ Error (message e);
                    Error "Failed to process the file. Please check the file format and content." ])%list
      end
  end.

End Page.

Definition is_error (el : Element) : bool :=
  match el with Error _ => true | _ => false end.

Definition is_download (el : Element) : bool :=
  match el with DownloadButton _ _ _ _ => true | _ => false end.

(** Closes the cases of an outcome that the checks passed so far rule in
    or out. *)
Ltac outcome_cases :=
  split_and!; try done;
  try (split; [ first [ intros [? [=]] | intros [=] | intros _ ]
              | first [ intros (? & ? & ?) | intros ? ] ];
       first [ done | lia | by eexists | intuition (first [done | lia]) ]);
  try (intros; first [ done | lia ]).

(** * Properties *)

(** ** Exceptions *)

Lemma try_except_returns {A} (body handler : Exc A) :
  returns handler -> returns (try_except body handler).
Proof.
  intros [a Ha]. destruct body as [b|e]; [by exists b | by exists a].
Qed.

Lemma apply_Forall2 {A B} (f : A -> Exc B) col ys :
  apply f col = Ret ys <-> Forall2 (fun x y => f x = Ret y) col ys.
Proof.
  revert ys. induction col as [|x col IH]; intros ys; simpl.
  - split.
    + intros [= <-]. constructor.
    + intros H. by inversion H.
  - split.
    + destruct (f x) as [y|e] eqn:Hx; simpl; [|done].
      destruct (apply f col) as [ys'|e] eqn:Hcol; simpl; [|done].
      intros [= <-]. constructor; [done|]. by apply IH.
    + intros H. inversion H as [|? y ? ys' Hy Hrest]; subst.
      rewrite Hy. simpl. apply IH in Hrest. by rewrite Hrest.
Qed.

Lemma apply_returns {A B} (f : A -> Exc B) col :
  (forall x, returns (f x)) -> returns (apply f col).
Proof.
  intros Hf. induction col as [|x col [ys IH]]; simpl.
  - by eexists.
  - destruct (Hf x) as [y ->]. simpl. rewrite IH. simpl. by eexists.
Qed.

Lemma apply_length {A B} (f : A -> Exc B) col ys :
  apply f col = Ret ys -> length ys = length col.
Proof.
  intros H. apply apply_Forall2 in H. symmetry. by eapply Forall2_length.
Qed.

(** ** Strings *)

Lemma text_chars s : text (chars s) = s.
Proof. apply string_of_list_ascii_of_string. Qed.

Lemma chars_append s t : chars (s ++ t) = (chars s ++ chars t)%list.
Proof. induction s as [|c s IH]; simpl; [done | by rewrite IH]. Qed.

Lemma starts_with_prefix p l :
  starts_with p l = true <-> exists rest, l = (p ++ rest)%list.
Proof.
  revert l. induction p as [|a p IH]; intros l; simpl.
  - split; [by exists l | done].
  - destruct l as [|b l].
    + split; [done | by intros [? [=]]].
    + destruct (decide (a = b)) as [->|Hne].
      * rewrite IH. split; intros [rest Hrest]; exists rest; [by subst | by injection Hrest].
      * split; [done | intros [rest [= ? _]]; done].
Qed.

(** [endswith] holds exactly of the strings that are a stem followed by
    the suffix. *)
Lemma endswith_suffix s suffix :
  endswith s suffix = true <-> exists stem, s = stem ++ suffix.
Proof.
  unfold endswith. rewrite starts_with_prefix. split.
  - intros [rest Hrest]. exists (text (rev rest)).
    rewrite <- (text_chars s), <- (text_chars suffix) at 1.
    rewrite <- (rev_involutive (chars s)), Hrest, rev_app_distr, rev_involutive.
    clear. generalize (rev rest) as l. intros l.
    induction l as [|c l IH]; simpl; [by rewrite !text_chars | by rewrite IH].
  - intros [stem ->]. exists (rev (chars stem)).
    by rewrite chars_append, rev_app_distr.
Qed.

Lemma zero_pad_digits width hi z :
  forallb (fun v => all_digits width (zero_pad width v)) (seqZ 0 hi) = true ->
  0 <= z < hi -> all_digits width (zero_pad width z) = true.
Proof.
  intros Hall Hz. rewrite forallb_forall in Hall. apply Hall.
  apply list_elem_of_In, elem_of_seqZ. lia.
Qed.

(** ** Step 4: the shift of the first column *)

Lemma shifted_cons x col :
  shifted (x :: col) = CStr "" :: take (length col) (x :: col).
Proof.
  unfold shifted. simpl. by rewrite Nat.sub_0_r.
Qed.

Lemma shifted_length col : length (shifted col) = length col.
Proof.
  destruct col as [|x col]; [done|].
  rewrite shifted_cons. simpl. rewrite length_take. simpl. lia.
Qed.

Lemma shifted_first col :
  col <> [] -> shifted col !! 0%nat = Some (CStr "").
Proof. destruct col as [|x col]; [done|]. by rewrite shifted_cons. Qed.

Lemma shifted_next col i :
  (S i < length col)%nat -> shifted col !! S i = col !! i.
Proof.
  destruct col as [|x col]; intros Hi; simpl in Hi; [lia|].
  rewrite shifted_cons. simpl. apply lookup_take_lt. lia.
Qed.

(** The second assignment decides: on a column with a row, the two
    assignments return when the dtype holds text and raise [TypeError]
    when it does not. *)
Lemma shift_down_text dtype col :
  col <> [] -> holds_text dtype = true ->
  shift_down dtype col = Ret (shifted col).
Proof.
  intros Hne Htext. unfold shift_down, shifted. cbv zeta.
  destruct col as [|x col]; [done|]. cbn [take app]. by rewrite Htext.
Qed.

Lemma shift_down_numeric dtype col :
  col <> [] -> holds_text dtype = false ->
  shift_down dtype col = Raise TypeError.
Proof.
  intros Hne Htext. unfold shift_down. cbv zeta.
  destruct col as [|x col]; [done|]. cbn [take app]. by rewrite Htext.
Qed.

Lemma no_rows_true df : no_rows df = true <-> colA df = [].
Proof. apply bool_decide_eq_true. Qed.

Lemma no_rows_false df : no_rows df = false <-> colA df <> [].
Proof. apply bool_decide_eq_false. Qed.

(** Step 4 ends in one of three ways. *)
Lemma shift_column_A_cases df :
  (colA df = [] /\ shift_column_A df = Ret df)
  \/ (colA df <> [] /\ holds_text (dtypeA df) = true
      /\ shift_column_A df
         = Ret (mkSelected (dtypeA df) (shifted (colA df))
                           (colC df) (colD df) (colN df)))
  \/ (colA df <> [] /\ holds_text (dtypeA df) = false
      /\ shift_column_A df = Raise TypeError).
Proof.
  unfold shift_column_A. destruct (no_rows df) eqn:Hrows.
  - left. by apply no_rows_true in Hrows.
  - apply no_rows_false in Hrows. right.
    destruct (holds_text (dtypeA df)) eqn:Htext.
    + left. by rewrite (shift_down_text _ _ Hrows Htext).
    + right. by rewrite (shift_down_numeric _ _ Hrows Htext).
Qed.

(** What a step 4 that returned has returned. *)
Lemma shift_column_A_returned df df' :
  shift_column_A df = Ret df' ->
  df' = mkSelected (dtypeA df) (shifted (colA df)) (colC df) (colD df) (colN df)
  /\ (colA df = [] \/ holds_text (dtypeA df) = true).
Proof.
  destruct (shift_column_A_cases df)
    as [[Hnil ->] | [(Hne & Htext & ->) | (Hne & Htext & ->)]]; [| |done].
  - intros [= <-]. split; [|by left].
    destruct df as [t a c d n]. simpl in *. by subst.
  - intros [= <-]. split; [done | by right].
Qed.

(** ** Step 9: the loop and the running reference *)

Lemma fill_loop_filled done todo cur :
  fill_loop (seq (length done) (length todo)) cur (done ++ todo)%list
  = (done ++ filled cur todo)%list.
Proof.
  revert done cur. induction todo as [|val todo IH]; intros done cur; simpl.
  - done.
  - rewrite lookup_app_r by lia. rewrite Nat.sub_diag. simpl.
    destruct (nonblank val) eqn:Hval.
    + specialize (IH (done ++ [val])%list val).
      rewrite length_app in IH. simpl in IH. rewrite Nat.add_1_r in IH.
      rewrite <- !app_assoc in IH. exact IH.
    + replace (length done) with (length done + 0)%nat at 2 by lia.
      rewrite insert_app_r. simpl.
      specialize (IH (done ++ [cur])%list cur).
      rewrite length_app in IH. simpl in IH. rewrite Nat.add_1_r in IH.
      rewrite <- !app_assoc in IH. exact IH.
Qed.

Lemma forward_fill_filled col : forward_fill col = filled (CStr "") col.
Proof. apply (fill_loop_filled [] col). Qed.

Lemma filled_length cur col : length (filled cur col) = length col.
Proof.
  revert cur. induction col as [|val col IH]; intros cur; simpl; [done|].
  destruct (nonblank val); simpl; by rewrite IH.
Qed.

Lemma filled_lookup cur col i val :
  col !! i = Some val ->
  filled cur col !! i
  = Some (if nonblank val then val else running_from cur (take i col)).
Proof.
  revert cur i. induction col as [|x col IH]; intros cur i; [done|].
  destruct i as [|i]; simpl.
  - intros [= ->]. by destruct (nonblank val).
  - intros Hi. unfold running_from. simpl.
    destruct (nonblank x); simpl; by rewrite (IH _ _ Hi).
Qed.

Lemma forward_fill_length col : length (forward_fill col) = length col.
Proof. rewrite forward_fill_filled. apply filled_length. Qed.

Lemma forward_fill_lookup col i val :
  col !! i = Some val ->
  forward_fill col !! i
  = Some (if nonblank val then val else running_reference (take i col)).
Proof. rewrite forward_fill_filled. apply filled_lookup. Qed.

(** The running reference is the initial empty string or a cell of the
    column that is not blank. *)
Lemma running_from_cases cur seen :
  running_from cur seen = cur
  \/ (running_from cur seen ∈ seen /\ nonblank (running_from cur seen) = true).
Proof.
  revert cur. induction seen as [|x seen IH]; intros cur; [by left|].
  unfold running_from. simpl. fold (running_from (if nonblank x then x else cur) seen).
  destruct (nonblank x) eqn:Hx.
  - right. destruct (IH x) as [-> | [Hin Hnb]].
    + split; [by left | done].
    + split; [by right | done].
  - destruct (IH cur) as [-> | [Hin Hnb]]; [by left|].
    right. split; [by right | done].
Qed.

(** ** The five columns of [output] *)

Lemma records_columns ref num date bal typ :
  length num = length ref -> length date = length ref ->
  length bal = length ref -> length typ = length ref ->
  debtor_reference <$> records ref num date bal typ = ref
  /\ document_number <$> records ref num date bal typ = num
  /\ document_date <$> records ref num date bal typ = date
  /\ document_balance <$> records ref num date bal typ = bal
  /\ document_type <$> records ref num date bal typ = typ.
Proof.
  revert num date bal typ.
  induction ref as [|r ref IH]; intros [|n num] [|d date] [|b bal] [|t typ];
    try done.
  intros [=Hn] [=Hd] [=Hb] [=Ht].
  destruct (IH num date bal typ Hn Hd Hb Ht) as (E1 & E2 & E3 & E4 & E5).
  repeat split; csimpl; congruence.
Qed.

Lemma Forall2_both {A B} (P Q : A -> B -> Prop) l k :
  Forall2 P l k -> Forall2 Q l k -> Forall2 (fun x y => P x y /\ Q x y) l k.
Proof.
  intros HP. induction HP; intros HQ; inversion HQ; subst; constructor; auto.
Qed.

Lemma column_length j df : length (column j df) = length (rows df).
Proof. unfold column. by rewrite length_fmap. Qed.

Lemma select_columns_aligned df : aligned (select_columns df).
Proof. unfold aligned. simpl. by rewrite !column_length. Qed.

Lemma shift_column_A_aligned df df' :
  aligned df -> shift_column_A df = Ret df' -> aligned df'.
Proof.
  intros Hal Hshift. apply shift_column_A_returned in Hshift as [-> _].
  unfold aligned in *. simpl. by rewrite shifted_length.
Qed.

(** ** Steps 10 to 13 return *)

Lemma determine_doc_type_returns balance : returns (determine_doc_type balance).
Proof. apply try_except_returns. by eexists. Qed.

Lemma format_balance_returns val : returns (format_balance val).
Proof. apply try_except_returns. by eexists. Qed.

Lemma for_formats_returns val fmts after :
  returns after -> returns (for_formats val fmts after).
Proof.
  intros Hafter. induction fmts as [|fmt fmts IH]; simpl; [done|].
  by apply try_except_returns.
Qed.

Section PipelineFacts.

Context {rt : Runtime}.

Lemma pandas_fallback_returns val : returns (pandas_fallback val).
Proof. apply try_except_returns. by eexists. Qed.

Lemma parse_date_returns val : returns (parse_date val).
Proof.
  unfold parse_date. destruct (_ || _); [by eexists|].
  apply for_formats_returns.
  destruct (pandas_fallback_returns val) as [r ->]. simpl.
  destruct r; by eexists.
Qed.

Lemma derive_returns df : returns (derive df).
Proof.
  unfold derive.
  destruct (apply_returns determine_doc_type (colN df) determine_doc_type_returns)
    as [types ->].
  destruct (apply_returns format_balance (colN df) format_balance_returns)
    as [balances ->].
  destruct (apply_returns parse_date (colD df) parse_date_returns)
    as [dates ->].
  simpl. by eexists.
Qed.

(** The table before the final filter, column by column. *)
Lemma derive_columns df pre :
  aligned df -> derive df = Ret pre ->
  length pre = length (colA df)
  /\ debtor_reference <$> pre = forward_fill (colA df)
  /\ document_number <$> pre = colC df
  /\ Forall2 (fun val r => parse_date val = Ret (document_date r)) (colD df) pre
  /\ Forall2 (fun val r => format_balance val = Ret (document_balance r)
                           /\ determine_doc_type val = Ret (document_type r))
             (colN df) pre.
Proof.
  intros (HC & HD & HN). unfold derive.
  destruct (apply determine_doc_type (colN df)) as [types|] eqn:Ht; [|done].
  destruct (apply format_balance (colN df)) as [balances|] eqn:Hb; [|done].
  destruct (apply parse_date (colD df)) as [dates|] eqn:Hd; [|done].
  simpl. intros [= <-].
  pose proof (apply_length _ _ _ Ht) as Lt.
  pose proof (apply_length _ _ _ Hb) as Lb.
  pose proof (apply_length _ _ _ Hd) as Ld.
  destruct (records_columns (forward_fill (colA df)) (colC df) dates balances types)
    as (Er & En & Ed & Eb & Et);
    rewrite ?forward_fill_length; try congruence.
  split; [|split; [done|split; [done|split]]].
  - rewrite <- (length_fmap debtor_reference), Er. apply forward_fill_length.
  - apply apply_Forall2 in Hd. rewrite <- Ed in Hd.
    by apply Forall2_fmap_r in Hd.
  - apply apply_Forall2 in Hb, Ht. rewrite <- Eb in Hb. rewrite <- Et in Ht.
    apply Forall2_fmap_r in Hb, Ht. by apply Forall2_both.
Qed.

End PipelineFacts.

(** ** The stages of [process_file] *)

Lemma supported_has_extension file :
  supported file = true <-> has_extension file.
Proof.
  unfold supported, has_extension. cbv zeta.
  rewrite !orb_true_iff, !endswith_suffix. split.
  - intros [[[stem H] | [stem H]] | [stem H]]; exists stem; eexists;
      (split; [|exact H]); repeat constructor.
  - intros (stem & ext & Hext & H).
    repeat (apply elem_of_cons in Hext as [-> | Hext]); eauto.
    by apply elem_of_nil in Hext.
Qed.

Section Stages.

Context {rt : Runtime}.

Lemma process_file_unsupported file :
  supported file = false ->
  process_file file = Ret (Rejected UnsupportedFormat).
Proof.
  unfold supported, process_file. cbv zeta.
  destruct (endswith _ ".csv"); [done|]. simpl.
  by intros ->.
Qed.

Lemma process_file_supported file :
  supported file = true ->
  process_file file = (df ← read file; process_frame df).
Proof.
  unfold supported, process_file, read. cbv zeta.
  destruct (endswith _ ".csv"); [done|]. simpl.
  by intros ->.
Qed.

Lemma process_file_read file df :
  supported file = true -> read file = Ret df ->
  process_file file = process_frame df.
Proof. intros Hsup Hread. by rewrite (process_file_supported _ Hsup), Hread. Qed.

Lemma process_file_reader_raised file e :
  supported file = true -> read file = Raise e -> process_file file = Raise e.
Proof. intros Hsup Hread. by rewrite (process_file_supported _ Hsup), Hread. Qed.

Lemma process_frame_empty df :
  empty df = true -> process_frame df = Ret (Rejected EmptyInput).
Proof. unfold process_frame. by intros ->. Qed.

Lemma process_frame_narrow df :
  empty df = false -> (ncols df < 14)%nat ->
  process_frame df = Ret (Rejected InsufficientColumns).
Proof.
  unfold process_frame. intros -> Hn.
  change (ncols (iloc_from 13 df)) with (ncols df).
  by destruct (Nat.ltb_spec (ncols df) 14); [|lia].
Qed.

Lemma process_frame_wide df :
  empty df = false -> (14 <= ncols df)%nat ->
  process_frame df
  = (sel ← prepared df;
     if no_rows sel then Ret (Normalized [])
     else output ← derive sel; Ret (Normalized (filter essential output))).
Proof.
  unfold process_frame, prepared. intros -> Hn.
  change (ncols (iloc_from 13 df)) with (ncols df).
  by destruct (Nat.ltb_spec (ncols df) 14); [lia|].
Qed.

Lemma derive_no_rows df :
  aligned df -> colA df = [] -> derive df = Ret [].
Proof.
  intros (HC & HD & HN) HA. rewrite HA in *.
  destruct df as [t a c d n]. simpl in *.
  apply nil_length_inv in HC, HD, HN. by subst.
Qed.

Lemma prepared_aligned df sel : prepared df = Ret sel -> aligned sel.
Proof. apply shift_column_A_aligned, select_columns_aligned. Qed.

(** The frame steps 9 to 13 work on, when step 4 has returned. *)
Lemma prepared_returned df sel :
  prepared df = Ret sel ->
  sel = mkSelected (column_dtype 0 df)
                   (shifted (column 0 (iloc_from 13 df)))
                   (column 2 (iloc_from 13 df))
                   (column 3 (iloc_from 13 df))
                   (column 13 (iloc_from 13 df))
  /\ ((length (rows df) <= 13)%nat \/ holds_text (column_dtype 0 df) = true).
Proof.
  unfold prepared. intros Hsel.
  apply shift_column_A_returned in Hsel as [-> Hwhy]. split; [done|].
  destruct Hwhy as [Hnil | Htext]; [left | by right].
  cbn [colA select_columns] in Hnil.
  apply (f_equal length) in Hnil.
  rewrite column_length in Hnil. cbn [rows iloc_from length] in Hnil.
  rewrite length_drop in Hnil. lia.
Qed.

Lemma prepared_length df sel :
  prepared df = Ret sel ->
  length (colA sel) = (length (rows df) - 13)%nat.
Proof.
  intros Hsel. apply prepared_returned in Hsel as [-> _].
  cbn [colA]. rewrite shifted_length, column_length.
  unfold iloc_from. cbn [rows]. apply length_drop.
Qed.

(** Steps 2 to 4 return exactly when no row is left after the trim or
    the first column holds text; otherwise they raise [TypeError]. *)
Lemma prepared_cases df :
  ((length (rows df) <= 13)%nat \/ holds_text (column_dtype 0 df) = true)
  /\ (exists sel, prepared df = Ret sel)
  \/ (13 < length (rows df))%nat /\ holds_text (column_dtype 0 df) = false
     /\ prepared df = Raise TypeError.
Proof.
  unfold prepared.
  assert (colA (select_columns (iloc_from 13 df)) = []
          <-> (length (rows df) <= 13)%nat) as Hrows.
  { cbn [colA select_columns]. rewrite <- length_zero_iff_nil.
    rewrite column_length. cbn [rows iloc_from]. rewrite length_drop. lia. }
  destruct (shift_column_A_cases (select_columns (iloc_from 13 df)))
    as [[Hnil ->] | [(Hne & Htext & ->) | (Hne & Htext & ->)]].
  - left. split; [left; by apply Hrows | by eexists].
  - left. split; [by right | by eexists].
  - right. split_and!; [|done|done].
    destruct (Nat.le_gt_cases (length (rows df)) 13) as [Hle|Hgt]; [|done].
    by apply Hrows in Hle.
Qed.

(** Past the three checks and a step 4 that returned, [process_file]
    returns the rows of the derived table that pass the filter. *)
Lemma process_frame_normal df sel :
  empty df = false -> (14 <= ncols df)%nat -> prepared df = Ret sel ->
  exists pre,
    derive sel = Ret pre
    /\ process_frame df = Ret (Normalized (filter essential pre)).
Proof.
  intros He Hn Hsel. rewrite (process_frame_wide _ He Hn), Hsel. cbn.
  destruct (no_rows sel) eqn:Hrows.
  - apply no_rows_true in Hrows. exists []. split; [|done].
    apply derive_no_rows; [by eapply prepared_aligned | done].
  - destruct (derive_returns sel) as [pre Hpre].
    exists pre. by rewrite Hpre.
Qed.

Lemma process_frame_raised df e :
  empty df = false -> (14 <= ncols df)%nat -> prepared df = Raise e ->
  process_frame df = Raise e.
Proof. intros He Hn Hsel. by rewrite (process_frame_wide _ He Hn), Hsel. Qed.

(** A returned table comes from a frame that passed the two checks and
    whose step 4 returned. *)
Lemma process_frame_normalized df output :
  process_frame df = Ret (Normalized output) ->
  empty df = false /\ (14 <= ncols df)%nat
  /\ exists sel pre,
       prepared df = Ret sel /\ derive sel = Ret pre
       /\ output = filter essential pre.
Proof.
  intros Hout. destruct (empty df) eqn:He.
  { by rewrite (process_frame_empty _ He) in Hout. }
  destruct (Nat.lt_ge_cases (ncols df) 14) as [Hn|Hn].
  { by rewrite (process_frame_narrow _ He Hn) in Hout. }
  split_and!; [done | done |].
  destruct (prepared df) as [sel|e] eqn:Hsel.
  - destruct (process_frame_normal _ _ He Hn Hsel) as (pre & Hpre & Hframe).
    exists sel, pre. split_and!; [done | done | congruence].
  - by rewrite (process_frame_raised _ _ He Hn Hsel) in Hout.
Qed.

End Stages.

(** ** Failure modes *)

Section Outcomes.

Context {rt : Runtime}.

(** C1. [process_file] reports an unsupported format exactly when the
    file name has none of the three extensions (letter case apart).  With
    one of them, a reader that raises makes [process_file] raise; when
    the reader returns a frame, [process_file] reports an empty input
    when the frame has no rows, too few columns when it has rows and
    fewer than 14 columns, and otherwise it returns a table exactly when
    at most 13 rows were read or the first column holds text; what is
    left is a frame of more than 13 rows whose first column is numeric,
    where the assignment of step 4 raises [TypeError].  With at least 14
    columns and at most 13 rows the table is empty.  Steps 9 to 13 return
    on every frame, whatever its cells hold.  The frames of the readers
    are taken to have a column whenever they have a row. *)
Theorem process_file_outcomes (file : UploadedFile) :
  (process_file file = Ret (Rejected UnsupportedFormat)
     <-> ~ has_extension file)
  /\ (forall e,
        has_extension file -> read file = Raise e ->
        process_file file = Raise e)
  /\ (forall df,
        has_extension file -> read file = Ret df ->
        (rows df <> [] -> ncols df <> 0%nat) ->
        (process_file file = Ret (Rejected EmptyInput) <-> rows df = [])
        /\ (process_file file = Ret (Rejected InsufficientColumns)
            <-> rows df <> [] /\ (ncols df < 14)%nat)
        /\ ((exists output, process_file file = Ret (Normalized output))
            <-> rows df <> [] /\ (14 <= ncols df)%nat
                /\ ((length (rows df) <= 13)%nat
                    \/ holds_text (column_dtype 0 df) = true))
        /\ (process_file file = Raise TypeError
            <-> rows df <> [] /\ (14 <= ncols df)%nat
                /\ (13 < length (rows df))%nat
                /\ holds_text (column_dtype 0 df) = false)
        /\ (rows df <> [] -> (14 <= ncols df)%nat ->
            (length (rows df) <= 13)%nat ->
            process_file file = Ret (Normalized [])))
  /\ (forall sel : Selected, returns (derive sel)).
Proof.
  rewrite <- !supported_has_extension.
  split_and!.
  - destruct (supported file) eqn:Hsup.
    + split; [|done]. rewrite (process_file_supported _ Hsup).
      destruct (read file) as [df|e]; [|done]. cbn.
      destruct (empty df) eqn:He.
      { by rewrite (process_frame_empty _ He). }
      destruct (Nat.lt_ge_cases (ncols df) 14) as [Hn|Hn].
      { by rewrite (process_frame_narrow _ He Hn). }
      rewrite (process_frame_wide _ He Hn).
      destruct (prepared df) as [sel|e]; [|done]. cbn.
      destruct (no_rows sel); [done|].
      by destruct (derive sel).
    + split; [done|]. intros _. by apply process_file_unsupported.
  - intros e Hsup Hread. apply supported_has_extension in Hsup.
    by apply process_file_reader_raised.
  - intros df Hsup Hread Hshape. apply supported_has_extension in Hsup.
    rewrite (process_file_read _ _ Hsup Hread).
    assert (empty df = true <-> rows df = []) as Hempty.
    { unfold empty. rewrite orb_true_iff, !bool_decide_eq_true. split; [|tauto].
      intros [H|H]; [done|]. destruct (rows df) eqn:E; [done|].
      exfalso. by apply Hshape. }
    destruct (empty df) eqn:He.
    + assert (rows df = []) as Hrows by by apply Hempty.
      rewrite (process_frame_empty _ He). outcome_cases.
    + assert (rows df <> []) as Hrows.
      { intros H. apply Hempty in H. congruence. }
      destruct (Nat.lt_ge_cases (ncols df) 14) as [Hn|Hn].
      * rewrite (process_frame_narrow _ He Hn). outcome_cases.
      * destruct (prepared_cases df)
          as [[Hwhy [sel Hsel]] | (Hgt & Htext & Hsel)].
        -- destruct (process_frame_normal _ _ He Hn Hsel) as (pre & Hpre & ->).
           split_and!.
           ++ done.
           ++ split; [done | intros [_ ?]; lia].
           ++ split; [done | by eexists].
           ++ split; [done|]. intros (_ & _ & Hgt & Htext).
              destruct Hwhy as [Hle | Hholds]; [lia | congruence].
           ++ intros _ _ Hlen. f_equal. f_equal.
              assert (pre = []) as ->; [|done].
              apply nil_length_inv.
              destruct (derive_columns _ _ (prepared_aligned _ _ Hsel) Hpre)
                as [-> _].
              rewrite (prepared_length _ _ Hsel). lia.
        -- rewrite (process_frame_raised _ _ He Hn Hsel).
           split_and!.
           ++ split; [done | by intros ?].
           ++ split; [done | intros [_ ?]; lia].
           ++ split; [by intros [? ?]|].
              intros (_ & _ & [Hle | Hholds]); [lia | congruence].
           ++ done.
           ++ intros _ _ Hlen. lia.
  - apply derive_returns.
Qed.

End Outcomes.

Lemma sample_file_has_extension : has_extension sample_file.
Proof.
  exists "ledger", ".csv". split; [repeat constructor | vm_compute; reflexivity].
Qed.

Lemma process_file_outcomes_witness :
  process_file (rt := sample_runtime) sample_file
  = Ret (Normalized
      [ mkRecord (CStr "D1") (CStr "N1") "15/01/2024" "100.00" "INV";
        mkRecord (CStr "D1") (CStr "N2") "15/01/2024" "-20.00" "CRD";
        mkRecord (CStr "D2") (CStr "N3") "soon" "1234.50" "INV" ])
  /\ exists output, process_file (rt := sample_runtime) sample_file
                    = Ret (Normalized output).
Proof.
  split; [by vm_compute|].
  destruct (process_file_outcomes (rt := sample_runtime) sample_file)
    as (_ & _ & Hread & _).
  destruct (Hread sample_frame sample_file_has_extension eq_refl)
    as (_ & _ & Hnormal & _).
  - by vm_compute.
  - apply Hnormal. split_and!.
    + by vm_compute.
    + vm_compute. lia.
    + right. reflexivity.
Defined.

(** C1, as first stated, fails.  A file of thirteen header rows and two
    data rows whose first column is empty from top to bottom has one of
    the extensions, rows, 14 columns and cells its dtypes hold, so none of
    the three errors applies; step 4 refuses the empty string in its
    [float64] first column and [process_file] raises [TypeError].  A
    reader that raises makes [process_file] raise as well. *)
Lemma shift_raises_on_numeric_first_column :
  has_extension sample_file
  /\ read (rt := runtime_without_references) sample_file
     = Ret frame_without_references
  /\ well_typed frame_without_references = true
  /\ length (rows frame_without_references) = 15%nat
  /\ ncols frame_without_references = 14%nat
  /\ column_dtype 0 frame_without_references = float64
  /\ prepared frame_without_references = Raise TypeError
  /\ process_file (rt := runtime_without_references) sample_file
     = Raise TypeError
  /\ ~ returns (process_file (rt := runtime_without_references) sample_file)
  /\ process_file (rt := failing_reader_runtime) sample_file
     = Raise (OtherError "EmptyDataError").
Proof.
  assert (process_file (rt := runtime_without_references) sample_file
          = Raise TypeError) as Hraise by (vm_compute; reflexivity).
  split_and!.
  - apply sample_file_has_extension.
  - reflexivity.
  - vm_compute. reflexivity.
  - reflexivity.
  - reflexivity.
  - reflexivity.
  - vm_compute. reflexivity.
  - exact Hraise.
  - rewrite Hraise. by intros [? ?].
  - vm_compute. reflexivity.
Qed.

(** ** Forward-fill *)

Lemma running_reference_snoc seen val :
  running_reference (seen ++ [val])
  = if nonblank val then val else running_reference seen.
Proof. unfold running_reference, running_from. by rewrite fold_left_app. Qed.

Lemma nonblank_iff val :
  nonblank val = true <-> notna val = true /\ strip (py_str val) <> "".
Proof.
  unfold nonblank, strip_nonempty.
  rewrite andb_true_iff, negb_true_iff, bool_decide_eq_false. tauto.
Qed.

Section ForwardFill.

Context {rt : Runtime}.

(** C2. The debtor references are filled by one pass over the whole column
    before the filter: the running reference starts as the empty string;
    a cell that is present and not blank once stripped stays and becomes
    the running reference; every other cell is overwritten with the
    running reference.  Whenever a table is returned, it is the filter
    applied to a table that has the filled column as its Debtor Reference,
    so rows dropped later still carry the reference forward. *)
Theorem forward_fill_running_reference :
  running_reference [] = CStr ""
  /\ (forall seen val,
        running_reference (seen ++ [val])
        = if nonblank val then val else running_reference seen)
  /\ (forall val,
        nonblank val = true <-> notna val = true /\ strip (py_str val) <> "")
  /\ (forall col, length (forward_fill col) = length col)
  /\ (forall col i val,
        col !! i = Some val ->
        forward_fill col !! i
        = Some (if nonblank val then val else running_reference (take i col)))
  /\ forward_fill [CStr "D1"; CStr ""; CStr ""; CStr "D2"; CStr ""]
     = [CStr "D1"; CStr "D1"; CStr "D1"; CStr "D2"; CStr "D2"]
  /\ (forall df output,
        process_frame df = Ret (Normalized output) ->
        exists sel pre,
          prepared df = Ret sel
          /\ derive sel = Ret pre
          /\ debtor_reference <$> pre = forward_fill (colA sel)
          /\ output = filter essential pre).
Proof.
  split_and!.
  - done.
  - apply running_reference_snoc.
  - apply nonblank_iff.
  - apply forward_fill_length.
  - apply forward_fill_lookup.
  - by vm_compute.
  - intros df output Hout.
    destruct (process_frame_normalized df output Hout)
      as (_ & _ & sel & pre & Hsel & Hpre & ->).
    exists sel, pre. split_and!; [done | done | | done].
    eapply derive_columns; [|done]. by eapply prepared_aligned.
Qed.

End ForwardFill.

Lemma forward_fill_running_reference_witness :
  exists sel pre,
    prepared sample_frame = Ret sel
    /\ colA sel = [CStr ""; CStr "D1"; nan; CStr "D2"; nan]
    /\ derive (rt := sample_runtime) sel = Ret pre
    /\ debtor_reference <$> pre
       = [CStr ""; CStr "D1"; CStr "D1"; CStr "D2"; CStr "D2"].
Proof.
  destruct (forward_fill_running_reference (rt := sample_runtime))
    as (_ & _ & _ & _ & _ & _ & Hpipeline).
  destruct (Hpipeline sample_frame
              [ mkRecord (CStr "D1") (CStr "N1") "15/01/2024" "100.00" "INV";
                mkRecord (CStr "D1") (CStr "N2") "15/01/2024" "-20.00" "CRD";
                mkRecord (CStr "D2") (CStr "N3") "soon" "1234.50" "INV" ])
    as (sel & pre & Hsel & Hpre & Href & _).
  - vm_compute. reflexivity.
  - assert (sel = mkSelected str_ [CStr ""; CStr "D1"; nan; CStr "D2"; nan]
                    (colC sel) (colD sel) (colN sel)) as Hcols.
    { assert (prepared sample_frame
              = Ret (mkSelected str_ [CStr ""; CStr "D1"; nan; CStr "D2"; nan]
                       (column 2 (iloc_from 13 sample_frame))
                       (column 3 (iloc_from 13 sample_frame))
                       (column 13 (iloc_from 13 sample_frame)))) as Hval
        by (vm_compute; reflexivity).
      rewrite Hval in Hsel. injection Hsel as <-. reflexivity. }
    exists sel, pre. split_and!; [exact Hsel | | exact Hpre |].
    + rewrite Hcols. reflexivity.
    + rewrite Href, Hcols. vm_compute. reflexivity.
Defined.

(** ** Balance and document type *)

(** Both helpers follow the one parse of the unformatted text. *)
Lemma balance_from_parse val :
  match py_float (unformatted val) with
  | Ret x =>
      format_balance val = Ret (format_2f x)
      /\ determine_doc_type val = Ret (if float_ge0 x then "INV" else "CRD")
  | Raise _ =>
      format_balance val = Ret "0.00" /\ determine_doc_type val = Ret "INV"
  end.
Proof.
  unfold format_balance, determine_doc_type.
  by destruct (py_float (unformatted val)).
Qed.

(** C3. An empty Document Balance cell is the float nan; its text [nan]
    parses as a float, so neither default applies: the emitted balance is
    [nan], which has no decimals, and the type is [CRD] although nothing is
    negative.  The row is emitted that way.  The same happens for the text
    [inf].  The balances [1,234.5], [-50] and [abc] come out as
    [1234.50] and [INV], [-50.00] and [CRD], [0.00] and [INV]. *)
Theorem blank_balance_is_emitted_as_nan :
  py_float (unformatted nan) = Ret FNaN
  /\ format_balance nan = Ret "nan"
  /\ determine_doc_type nan = Ret "CRD"
  /\ process_frame (rt := sample_runtime) ledger_with_blank_balance
     = Ret (Normalized
         [ mkRecord (CStr "D1") (CStr "N1") "15/01/2024" "100.00" "INV";
           mkRecord (CStr "D1") (CStr "N2") "16/01/2024" "nan" "CRD" ])
  /\ format_balance (CStr "inf") = Ret "inf"
  /\ (format_balance (CStr "1,234.5") = Ret "1234.50"
      /\ determine_doc_type (CStr "1,234.5") = Ret "INV")
  /\ (format_balance (CStr "-50") = Ret "-50.00"
      /\ determine_doc_type (CStr "-50") = Ret "CRD")
  /\ (format_balance (CStr "abc") = Ret "0.00"
      /\ determine_doc_type (CStr "abc") = Ret "INV").
Proof. split_and!; by vm_compute. Qed.

(** ** Finite balances *)

Lemma round_half_even_nonneg n d : 0 <= n -> 0 < d -> 0 <= round_half_even n d.
Proof.
  intros Hn Hd. unfold round_half_even.
  pose proof (Z.div_pos n d Hn Hd).
  repeat destruct (_ <? _); try destruct (Z.even _); lia.
Qed.

Lemma scaled_round_nonneg num den e :
  0 <= num -> 0 < den -> 0 <= scaled_round num den e.
Proof.
  intros Hn Hd. unfold scaled_round.
  destruct (Z.leb_spec 0 e); apply round_half_even_nonneg; try done.
  - apply Z.mul_pos_pos; [lia | apply Z.pow_pos_nonneg; lia].
  - apply Z.mul_nonneg_nonneg; [lia | apply Z.pow_nonneg; lia].
Qed.

Lemma binary64_round_finite neg num den neg' m e :
  0 <= num -> 0 < den ->
  binary64_round neg num den = FFin neg' m e -> neg' = neg /\ 0 <= m.
Proof.
  intros Hn Hd. unfold binary64_round.
  destruct (num =? 0); [intros [= <- <- <-]; split; [done | lia]|].
  cbv zeta. destruct (_ && _); [done|].
  destruct (_ =? 2 ^ 53).
  - intros [= <- <- <-]. split; [done | lia].
  - intros [= <- <- <-]. split; [done | by apply scaled_round_nonneg].
Qed.

Lemma span_digits_digits l :
  Forall (fun c => is_digit c = true) (span_digits l).1.
Proof.
  induction l as [|c l IH]; simpl; [constructor|].
  destruct (is_digit c) eqn:Hc; [|constructor].
  destruct (span_digits l) as [d r]. simpl in *. by constructor.
Qed.

Lemma digit_val_nonneg c : is_digit c = true -> 0 <= digit_val c.
Proof.
  unfold is_digit, digit_val. cbv zeta.
  rewrite andb_true_iff, !N.leb_le. lia.
Qed.

Lemma digits_value_nonneg d :
  Forall (fun c => is_digit c = true) d -> 0 <= digits_value d.
Proof.
  unfold digits_value.
  assert (forall acc, 0 <= acc ->
            Forall (fun c => is_digit c = true) d ->
            0 <= fold_left (fun a c => 10 * a + digit_val c) d acc) as H.
  { induction d as [|c d IH]; intros acc Hacc Hd; simpl; [done|].
    inversion Hd as [|? ? Hc Hrest]; subst. apply IH; [|done].
    pose proof (digit_val_nonneg c Hc). lia. }
  by apply H.
Qed.

Lemma parse_decimal_finite neg l neg' m e :
  parse_decimal neg l = Some (FFin neg' m e) -> neg' = neg /\ 0 <= m.
Proof.
  unfold parse_decimal.
  pose proof (span_digits_digits l) as Hip.
  destruct (span_digits l) as [ip r1]. simpl in Hip.
  assert (exists fp r2,
            match r1 with
            | "."%char :: r => span_digits r
            | _ => ([], r1)
            end = (fp, r2)
            /\ Forall (fun c => is_digit c = true) fp) as (fp & r2 & -> & Hfp).
  { destruct r1 as [|c r]; [by eexists _, _|].
    destruct (decide (c = "."%char)) as [->|Hc].
    - pose proof (span_digits_digits r). destruct (span_digits r) as [fp r2].
      by eexists _, _.
    - exists [], (c :: r). split; [|constructor].
      destruct c as [[|] [|] [|] [|] [|] [|] [|] [|]]; done. }
  assert (0 <= digits_value (ip ++ fp)) as Hval
    by (apply digits_value_nonneg, Forall_app; done).
  destruct (ip ++ fp)%list as [|c ds] eqn:Hds; [done|].
  destruct (take_exponent r2) as [ex r3]. destruct r3; [|done].
  intros [= Hround]. revert Hround.
  destruct (0 <=? _) eqn:Hx; apply binary64_round_finite; try lia;
    first [ apply Z.mul_nonneg_nonneg; [done | apply Z.pow_nonneg; lia]
          | apply Z.pow_pos_nonneg; lia ].
Qed.

Lemma py_float_finite s neg m e : py_float s = Ret (FFin neg m e) -> 0 <= m.
Proof.
  unfold py_float. destruct (drop_underscores None (chars s)) as [l|]; [|done].
  destruct (take_sign _) as [sign body].
  destruct (parse_decimal sign body) as [x|] eqn:Hdec.
  - intros [= ->]. by destruct (parse_decimal_finite _ _ _ _ _ Hdec).
  - unfold parse_inf_or_nan. cbv zeta.
    destruct (_ || _); [done|]. by destruct (decide _).
Qed.

Lemma string_of_uint_digits u :
  forallb is_digit (chars (NilEmpty.string_of_uint u)) = true.
Proof. induction u; simpl; by rewrite ?IHu. Qed.

Lemma Z_to_string_digits z :
  0 <= z ->
  Z_to_string z <> "" /\ forallb is_digit (chars (Z_to_string z)) = true.
Proof.
  intros Hz. unfold Z_to_string.
  destruct z as [|p|p]; [by vm_compute | | lia].
  unfold Z.to_int, NilZero.string_of_int, NilZero.string_of_uint.
  destruct (Pos.to_uint p) eqn:Hu; try (split; [done | apply (string_of_uint_digits (_ u))]).
  by vm_compute.
Qed.

Lemma hundredths_nonneg m e : 0 <= m -> 0 <= hundredths m e.
Proof.
  intros Hm. unfold hundredths. destruct (Z.leb_spec 0 e).
  - apply Z.mul_nonneg_nonneg; [|lia].
    apply Z.mul_nonneg_nonneg; [done | apply Z.pow_nonneg; lia].
  - apply round_half_even_nonneg; [lia | apply Z.pow_pos_nonneg; lia].
Qed.

(** X1. For every cell whose unformatted text parses to a finite float,
    the emitted balance is an optional minus sign, at least one digit, a
    point and exactly two digits, and the type is [CRD] exactly when the
    float is negative. *)
Theorem finite_balance_two_decimals (val : Cell) (neg : bool) (m e : Z) :
  py_float (unformatted val) = Ret (FFin neg m e) ->
  exists whole frac,
    format_balance val = Ret ((if neg then "-" else "") ++ whole ++ "." ++ frac)
    /\ whole <> ""
    /\ forallb is_digit (chars whole) = true
    /\ all_digits 2 frac = true
    /\ determine_doc_type val
       = Ret (if neg && negb (m =? 0) then "CRD" else "INV").
Proof.
  intros Hparse. pose proof (py_float_finite _ _ _ _ Hparse) as Hm.
  pose proof (balance_from_parse val) as Hboth. rewrite Hparse in Hboth.
  destruct Hboth as [Hbal Htyp].
  pose proof (hundredths_nonneg m e Hm) as Hh.
  destruct (Z_to_string_digits (hundredths m e / 100)) as [Hne Hdig];
    [apply Z.div_pos; lia|].
  exists (Z_to_string (hundredths m e / 100)), (zero_pad 2 (hundredths m e mod 100)).
  split_and!; try done.
  - apply (zero_pad_digits 2 100); [vm_compute; reflexivity|].
    apply Z.mod_pos_bound. lia.
  - rewrite Htyp. simpl. by destruct neg, (m =? 0).
Qed.

Lemma finite_balance_two_decimals_witness :
  exists whole frac,
    format_balance (CStr "-$1,234.5") = Ret ("-" ++ whole ++ "." ++ frac)
    /\ all_digits 2 frac = true
    /\ determine_doc_type (CStr "-$1,234.5") = Ret "CRD".
Proof.
  destruct (finite_balance_two_decimals (CStr "-$1,234.5") true
              5429388417957888 (-42)) as (whole & frac & Hb & _ & _ & Hf & Ht).
  - vm_compute. reflexivity.
  - exists whole, frac. split_and!; [exact Hb | exact Hf | exact Ht].
Defined.

(** ** Dates *)

Lemma for_formats_first val earlier fmt later after d :
  Forall (fun f => raises (strptime (py_str val) f)) earlier ->
  strptime (py_str val) fmt = Ret d ->
  for_formats val (earlier ++ fmt :: later) after = Ret (strftime_dmy d).
Proof.
  intros Hearlier Hfmt. induction Hearlier as [|f earlier [e Hf] _ IH]; simpl.
  - by rewrite Hfmt.
  - by rewrite Hf.
Qed.

Lemma for_formats_none val fmts after :
  Forall (fun f => raises (strptime (py_str val) f)) fmts ->
  for_formats val fmts after = after.
Proof.
  intros Hall. induction Hall as [|f fmts [e Hf] _ IH]; simpl; [done|].
  by rewrite Hf.
Qed.

Lemma strptime_valid s fmt d : strptime s fmt = Ret d -> valid_date d = true.
Proof.
  unfold strptime.
  destruct (match_format _ _ _) as [[d' [|? ?]]|]; try done.
  destruct (valid_date d') eqn:Hv; [|done]. by intros [= <-].
Qed.

(** From the year 1000 on the year has its four digits. *)
Lemma Z_to_string_four y : 1000 <= y <= 9999 -> Z_to_string y = zero_pad 4 y.
Proof.
  intros Hy.
  assert (forallb (fun v => bool_decide (Z_to_string v = zero_pad 4 v))
                  (seqZ 1000 9000) = true) as Hall
    by (vm_compute; reflexivity).
  rewrite forallb_forall in Hall.
  eapply bool_decide_eq_true_1, Hall, list_elem_of_In, elem_of_seqZ. lia.
Qed.

Lemma strftime_dmy_padded d :
  valid_date d = true -> 1000 <= year d ->
  strftime_dmy d
  = zero_pad 2 (day d) ++ "/" ++ zero_pad 2 (month d) ++ "/" ++ zero_pad 4 (year d).
Proof.
  unfold valid_date. rewrite !andb_true_iff, !Z.leb_le.
  intros [[[[[_ Hy] _] _] _] _] Hy'.
  unfold strftime_dmy. by rewrite Z_to_string_four by lia.
Qed.

Lemma strftime_dmy_shape d :
  valid_date d = true -> 1000 <= year d -> is_dmy (strftime_dmy d) = true.
Proof.
  intros Hvalid Hfour. rewrite (strftime_dmy_padded d Hvalid Hfour).
  clear Hfour. revert Hvalid.
  unfold valid_date. rewrite !andb_true_iff, !Z.leb_le.
  intros [[[[[Hy1 Hy2] Hm1] Hm2] Hd1] Hd2].
  assert (day d <= 31) as Hd3.
  { unfold days_in_month in Hd2.
    repeat destruct (_ =? _); repeat destruct (is_leap _); simpl in Hd2; lia. }
  assert (all_digits 2 (zero_pad 2 (day d)) = true) as Hday
    by (apply (zero_pad_digits 2 32); [by vm_compute | lia]).
  assert (all_digits 2 (zero_pad 2 (month d)) = true) as Hmonth
    by (apply (zero_pad_digits 2 13); [by vm_compute | lia]).
  assert (all_digits 4 (zero_pad 4 (year d)) = true) as Hyear
    by (apply (zero_pad_digits 4 10000); [by vm_compute | lia]).
  unfold is_dmy. rewrite !chars_append.
  unfold all_digits in *.
  apply andb_true_iff in Hday as [Hl1 Hday], Hmonth as [Hl2 Hmonth],
    Hyear as [Hl3 Hyear].
  apply bool_decide_eq_true in Hl1, Hl2, Hl3.
  destruct (chars (zero_pad 2 (day d))) as [|a1 [|a2 [|]]]; try done.
  destruct (chars (zero_pad 2 (month d))) as [|b1 [|b2 [|]]]; try done.
  destruct (chars (zero_pad 4 (year d))) as [|c1 [|c2 [|c3 [|c4 [|]]]]]; try done.
  cbn -[is_digit] in *.
  repeat match goal with
         | H : _ && _ = true |- _ => apply andb_true_iff in H as [? ?]
         end.
  by repeat match goal with
            | H : is_digit _ = true |- _ => rewrite H; clear H
            end.
Qed.

Section Dates.

Context {rt : Runtime}.

Lemma parse_date_blank val :
  isna val = true \/ strip (py_str val) = "" -> parse_date val = Ret "".
Proof.
  unfold parse_date. intros [-> | ->]; [done|].
  by rewrite bool_decide_eq_true_2, orb_true_r.
Qed.

Lemma parse_date_nonblank val :
  isna val = false -> strip (py_str val) <> "" ->
  parse_date val
  = for_formats val date_formats
      (r ← pandas_fallback val;
       match r with
       | Some s => Ret s
       | None => Ret (py_str val)
       end).
Proof.
  unfold parse_date. intros -> Hs. by rewrite bool_decide_eq_false_2.
Qed.

(** X12. A missing or blank date gives the empty string.  Otherwise the
    seven formats are tried on the text of the value in the order
    day/month/year, year-month-day, day-month-year, month/day/year,
    year/month/day, day-abbreviated month-year with dashes and then with
    spaces: the first one that parses decides the date.  When none does,
    the day-first fallback parser is asked.  A date found either way is
    written by [strftime]; from the year 1000 on that is two digits, a
    slash, two digits, a slash and four digits. *)
Theorem parse_date_priority (val : Cell) :
  date_formats
  = ["%d/%m/%Y"; "%Y-%m-%d"; "%d-%m-%Y"; "%m/%d/%Y"; "%Y/%m/%d";
     "%d-%b-%Y"; "%d %b %Y"]
  /\ (isna val = true \/ strip (py_str val) = "" -> parse_date val = Ret "")
  /\ (isna val = false -> strip (py_str val) <> "" ->
      forall earlier fmt later d,
        date_formats = (earlier ++ fmt :: later)%list ->
        Forall (fun f => raises (strptime (py_str val) f)) earlier ->
        strptime (py_str val) fmt = Ret d ->
        parse_date val = Ret (strftime_dmy d)
        /\ valid_date d = true
        /\ (1000 <= year d -> is_dmy (strftime_dmy d) = true))
  /\ (isna val = false -> strip (py_str val) <> "" ->
      Forall (fun f => raises (strptime (py_str val) f)) date_formats ->
      forall d,
        to_datetime val = Ret (Some d) ->
        parse_date val = Ret (strftime_dmy d)
        /\ (valid_date d = true -> 1000 <= year d ->
            is_dmy (strftime_dmy d) = true))
  /\ parse_date (CStr "2024-01-15") = Ret "15/01/2024"
  /\ parse_date (CStr "15-Jan-2024") = Ret "15/01/2024"
  /\ parse_date nan = Ret ""
  /\ parse_date (CStr "") = Ret ""
  /\ parse_date (CStr "  ") = Ret "".
Proof.
  split; [reflexivity|].
  split; [apply parse_date_blank|].
  split; [|split; [|split_and!; vm_compute; reflexivity]].
  - intros Hna Hs earlier fmt later d Hfmts Hearlier Hfmt.
    rewrite (parse_date_nonblank _ Hna Hs), Hfmts.
    pose proof (strptime_valid _ _ _ Hfmt) as Hvalid.
    split_and!; [by apply for_formats_first | done |].
    by apply strftime_dmy_shape.
  - intros Hna Hs Hnone d Hd.
    rewrite (parse_date_nonblank _ Hna Hs), (for_formats_none _ _ _ Hnone).
    unfold pandas_fallback. rewrite Hd. simpl.
    split; [done | apply strftime_dmy_shape].
Qed.

(** C5. [parse_date] never raises.  A value that is present and not
    blank, that none of the seven formats parses and that the fallback
    parser does not recognise (it returns [NaT] or raises) is written as
    its own text. *)
Theorem parse_date_unparsed :
  (forall val, returns (parse_date val))
  /\ (forall val,
        isna val = false -> strip (py_str val) <> "" ->
        Forall (fun f => raises (strptime (py_str val) f)) date_formats ->
        to_datetime val = Ret None \/ raises (to_datetime val) ->
        parse_date val = Ret (py_str val)).
Proof.
  split; [apply parse_date_returns|].
  intros val Hna Hs Hnone Hfall.
  rewrite (parse_date_nonblank _ Hna Hs), (for_formats_none _ _ _ Hnone).
  unfold pandas_fallback. by destruct Hfall as [-> | [e ->]].
Qed.

End Dates.

Lemma no_format_parses_soon :
  Forall (fun f => raises (strptime (py_str (CStr "soon")) f)) date_formats.
Proof. repeat constructor; eexists; vm_compute; reflexivity. Qed.

Lemma parse_date_priority_witness :
  parse_date (rt := sample_runtime) (CStr "12/25/2024") = Ret "25/12/2024"
  /\ is_dmy (strftime_dmy (mkDate 2024 12 25)) = true.
Proof.
  destruct (parse_date_priority (rt := sample_runtime) (CStr "12/25/2024"))
    as (_ & _ & Hfirst & _).
  destruct (Hfirst eq_refl ltac:(vm_compute; discriminate)
              ["%d/%m/%Y"; "%Y-%m-%d"; "%d-%m-%Y"] "%m/%d/%Y"
              ["%Y/%m/%d"; "%d-%b-%Y"; "%d %b %Y"] (mkDate 2024 12 25))
    as (Hdate & _ & Hshape).
  - reflexivity.
  - repeat constructor; eexists; vm_compute; reflexivity.
  - vm_compute. reflexivity.
  - split; [exact Hdate | apply Hshape; vm_compute; discriminate].
Defined.

(** C4. The step that is to write every date as DD/MM/YYYY does not do so
    before the year 1000.  The text [01/01/0999] is parsed by the first
    format as 1 January 999, a date that exists, and written back as
    [01/01/999]; the text [0001-01-15] is parsed by the second format and
    written back as [15/01/1].  Neither is two digits, a slash, two
    digits, a slash and four digits.  The fallback parser is not asked
    for either.  The dates of the years that ledgers carry come out as
    stated: [2024-01-15] and [15-Jan-2024] both give [15/01/2024], and a
    missing or blank date gives the empty string. *)
Theorem year_before_1000_is_not_dmy :
  strptime "01/01/0999" "%d/%m/%Y" = Ret (mkDate 999 1 1)
  /\ valid_date (mkDate 999 1 1) = true
  /\ (forall rt : Runtime,
        parse_date (rt := rt) (CStr "01/01/0999") = Ret "01/01/999")
  /\ is_dmy "01/01/999" = false
  /\ (forall rt : Runtime,
        parse_date (rt := rt) (CStr "0001-01-15") = Ret "15/01/1")
  /\ is_dmy "15/01/1" = false
  /\ (forall rt : Runtime,
        parse_date (rt := rt) (CStr "2024-01-15") = Ret "15/01/2024"
        /\ parse_date (rt := rt) (CStr "15-Jan-2024") = Ret "15/01/2024"
        /\ parse_date (rt := rt) nan = Ret ""
        /\ parse_date (rt := rt) (CStr "") = Ret "").
Proof.
  split_and!.
  - vm_compute. reflexivity.
  - reflexivity.
  - intros rt. vm_compute. reflexivity.
  - reflexivity.
  - intros rt. vm_compute. reflexivity.
  - reflexivity.
  - intros rt. split_and!; vm_compute; reflexivity.
Qed.

Lemma parse_date_unparsed_witness :
  parse_date (rt := sample_runtime) (CStr "soon") = Ret "soon".
Proof.
  destruct (parse_date_unparsed (rt := sample_runtime)) as [_ Hkept].
  apply Hkept.
  - reflexivity.
  - vm_compute. discriminate.
  - apply no_format_parses_soon.
  - left. reflexivity.
Defined.

(** C5, as first stated, fails: the text [soon] is present and not blank,
    none of the seven formats parses it and the fallback parser does not
    recognise it, whether it answers [NaT] or raises, and the date field
    is [soon], not the empty string. *)
Lemma unparsed_date_is_kept :
  isna (CStr "soon") = false
  /\ strip (py_str (CStr "soon")) <> ""
  /\ Forall (fun f => raises (strptime (py_str (CStr "soon")) f)) date_formats
  /\ to_datetime (Runtime := sample_runtime) (CStr "soon") = Ret None
  /\ parse_date (rt := sample_runtime) (CStr "soon") = Ret "soon"
  /\ parse_date (rt := sample_runtime) (CStr "soon") <> Ret ""
  /\ raises (to_datetime (Runtime := raising_runtime) (CStr "soon"))
  /\ parse_date (rt := raising_runtime) (CStr "soon") = Ret "soon"
  /\ parse_date (rt := raising_runtime) (CStr "soon") <> Ret "".
Proof.
  assert (parse_date (rt := sample_runtime) (CStr "soon") = Ret "soon") as Hnat
    by (vm_compute; reflexivity).
  assert (parse_date (rt := raising_runtime) (CStr "soon") = Ret "soon") as Hexc
    by (vm_compute; reflexivity).
  split_and!.
  - reflexivity.
  - vm_compute. discriminate.
  - apply no_format_parses_soon.
  - reflexivity.
  - exact Hnat.
  - rewrite Hnat. discriminate.
  - eexists. reflexivity.
  - exact Hexc.
  - rewrite Hexc. discriminate.
Qed.

(** ** Column selection, shift and filter in the pipeline *)

Lemma column_lookup j df i row :
  rows df !! i = Some row -> column j df !! i = Some (default nan (row !! j)).
Proof. intros H. unfold column. by rewrite list_lookup_fmap, H. Qed.

Lemma rectangular_lookup df i row j :
  rectangular df -> rows df !! i = Some row -> (j < ncols df)%nat ->
  exists val, row !! j = Some val.
Proof.
  intros Hrect Hrow Hj.
  assert (length row = ncols df) as Hlen.
  { unfold rectangular in Hrect. rewrite Forall_lookup in Hrect. by eapply Hrect. }
  apply lookup_lt_is_Some. lia.
Qed.

Lemma fmap_lookup_field {A B} (f : A -> B) (l : list A) (k : list B) i x :
  f <$> l = k -> l !! i = Some x -> k !! i = Some (f x).
Proof. intros <- H. by rewrite list_lookup_fmap, H. Qed.

(** X13. Step 4 returns exactly when the frame has no row or its first
    column holds text; on a frame with a row whose first column is numeric
    the assignment of the empty string raises [TypeError].  When it
    returns, it has changed the first of the four columns only: its first
    cell is the empty string, which counts as blank, every later cell has
    the value of the cell above it, and its length and dtype are as
    before; the document number, date and balance columns are the ones
    selected. *)
Theorem column_A_shift (df : Selected) :
  (returns (shift_column_A df)
     <-> colA df = [] \/ holds_text (dtypeA df) = true)
  /\ (colA df <> [] -> holds_text (dtypeA df) = false ->
      shift_column_A df = Raise TypeError)
  /\ (forall df',
        shift_column_A df = Ret df' ->
        length (colA df') = length (colA df)
        /\ (colA df <> [] -> colA df' !! 0%nat = Some (CStr ""))
        /\ nonblank (CStr "") = false
        /\ (forall i, (S i < length (colA df))%nat ->
              colA df' !! S i = colA df !! i)
        /\ dtypeA df' = dtypeA df
        /\ colC df' = colC df
        /\ colD df' = colD df
        /\ colN df' = colN df).
Proof.
  split_and!.
  - destruct (shift_column_A_cases df)
      as [[Hnil ->] | [(Hne & Htext & ->) | (Hne & Htext & ->)]].
    + split; [by left | by eexists].
    + split; [by right | by eexists].
    + split; [by intros [? ?] | intros [? | ?]; congruence].
  - intros Hne Htext.
    destruct (shift_column_A_cases df)
      as [[Hnil _] | [(_ & Htext' & _) | (_ & _ & ->)]]; congruence.
  - intros df' Hshift. apply shift_column_A_returned in Hshift as [-> _].
    cbn [dtypeA colA colC colD colN]. split_and!; try done.
    + apply shifted_length.
    + apply shifted_first.
    + apply shifted_next.
Qed.

Lemma column_A_shift_witness :
  exists df',
    shift_column_A (select_columns (iloc_from 13 sample_frame)) = Ret df'
    /\ colA df' = [CStr ""; CStr "D1"; nan; CStr "D2"; nan]
    /\ colA df' !! 0%nat = Some (CStr "").
Proof.
  assert (shift_column_A (select_columns (iloc_from 13 sample_frame))
          = Ret (mkSelected str_ [CStr ""; CStr "D1"; nan; CStr "D2"; nan]
                   (column 2 (iloc_from 13 sample_frame))
                   (column 3 (iloc_from 13 sample_frame))
                   (column 13 (iloc_from 13 sample_frame)))) as Hshift
    by (vm_compute; reflexivity).
  eexists. split; [exact Hshift|]. split; [reflexivity|].
  destruct (column_A_shift (select_columns (iloc_from 13 sample_frame)))
    as (_ & _ & Hafter).
  destruct (Hafter _ Hshift) as (_ & Hfirst & _).
  apply Hfirst. vm_compute. discriminate.
Defined.

(** C6. The step that is to move the first column down one cell and
    blank its first cell does not do so on a numeric first column.  After
    the column selection on a file whose first column is empty from top
    to bottom, that column has two rows and the dtype [float64]; the
    assignment of the empty string raises [TypeError], so no cell of the
    column becomes blank and nothing is shifted.  On the sample ledger,
    whose first column holds text, the column [D1, nan, D2, nan, nan]
    becomes the empty string followed by [D1, nan, D2, nan], and the
    other three columns stay as selected. *)
Theorem numeric_first_column_is_not_shifted :
  well_typed frame_without_references = true
  /\ colA (select_columns (iloc_from 13 frame_without_references)) = [nan; nan]
  /\ dtypeA (select_columns (iloc_from 13 frame_without_references)) = float64
  /\ shift_column_A (select_columns (iloc_from 13 frame_without_references))
     = Raise TypeError
  /\ ~ (exists df',
         shift_column_A (select_columns (iloc_from 13 frame_without_references))
         = Ret df')
  /\ well_typed sample_frame = true
  /\ colA (select_columns (iloc_from 13 sample_frame))
     = [CStr "D1"; nan; CStr "D2"; nan; nan]
  /\ shift_column_A (select_columns (iloc_from 13 sample_frame))
     = Ret (mkSelected str_ [CStr ""; CStr "D1"; nan; CStr "D2"; nan]
              (colC (select_columns (iloc_from 13 sample_frame)))
              (colD (select_columns (iloc_from 13 sample_frame)))
              (colN (select_columns (iloc_from 13 sample_frame)))).
Proof.
  assert (shift_column_A (select_columns (iloc_from 13 frame_without_references))
          = Raise TypeError) as Hraise by (vm_compute; reflexivity).
  split_and!.
  - vm_compute. reflexivity.
  - vm_compute. reflexivity.
  - reflexivity.
  - exact Hraise.
  - rewrite Hraise. by intros [? ?].
  - vm_compute. reflexivity.
  - vm_compute. reflexivity.
  - vm_compute. reflexivity.
Qed.

Section Emitted.

Context {rt : Runtime}.

(** A returned table comes from a file with one of the extensions whose
    frame was read, passed the two checks and went through step 4. *)
Lemma process_file_normalized file output :
  process_file file = Ret (Normalized output) ->
  supported file = true
  /\ exists df sel pre,
       read file = Ret df
       /\ empty df = false /\ (14 <= ncols df)%nat
       /\ prepared df = Ret sel /\ derive sel = Ret pre
       /\ output = filter essential pre.
Proof.
  destruct (supported file) eqn:Hsup.
  - rewrite (process_file_supported _ Hsup).
    destruct (read file) as [df|e]; [|done]. cbn. intros Hout.
    destruct (process_frame_normalized _ _ Hout)
      as (He & Hn & sel & pre & Hsel & Hpre & ->).
    split; [done|]. by exists df, sel, pre.
  - by rewrite (process_file_unsupported _ Hsup).
Qed.

(** C7. Every record of a returned table has a Debtor Reference and a
    Document Number that are present and not blank once stripped.  The
    table is the derived table with exactly the rows removed in which one
    of the two is missing or blank, the others in their order. *)
Theorem emitted_keys_nonblank (file : UploadedFile)
    (output : list NormalizedRecord) :
  process_file file = Ret (Normalized output) ->
  Forall (fun r =>
            (notna (debtor_reference r) = true
             /\ strip (py_str (debtor_reference r)) <> "")
            /\ (notna (document_number r) = true
                /\ strip (py_str (document_number r)) <> ""))
         output
  /\ exists df sel pre,
       read file = Ret df
       /\ prepared df = Ret sel
       /\ derive sel = Ret pre
       /\ output = filter essential pre
       /\ output `sublist_of` pre
       /\ (forall r, r ∈ pre ->
             (r ∈ output
              <-> nonblank (debtor_reference r) = true
                  /\ nonblank (document_number r) = true)).
Proof.
  intros Hout.
  destruct (process_file_normalized _ _ Hout)
    as (Hsup & df & sel & pre & Hread & He & Hn & Hsel & Hpre & ->).
  split.
  - apply Forall_forall. intros r Hr.
    apply list_elem_of_filter in Hr as [Hr _].
    apply Is_true_true, andb_true_iff in Hr as [H1 H2].
    by rewrite <- !nonblank_iff.
  - exists df, sel, pre.
    split_and!; [done | done | done | done | apply sublist_filter |].
    intros r Hr. rewrite list_elem_of_filter.
    unfold essential. rewrite Is_true_true, andb_true_iff. tauto.
Qed.

End Emitted.

Lemma emitted_keys_nonblank_witness :
  Forall (fun r =>
            (notna (debtor_reference r) = true
             /\ strip (py_str (debtor_reference r)) <> "")
            /\ (notna (document_number r) = true
                /\ strip (py_str (document_number r)) <> ""))
         [ mkRecord (CStr "D1") (CStr "N1") "15/01/2024" "100.00" "INV";
           mkRecord (CStr "D1") (CStr "N2") "15/01/2024" "-20.00" "CRD";
           mkRecord (CStr "D2") (CStr "N3") "soon" "1234.50" "INV" ].
Proof.
  eapply (emitted_keys_nonblank (rt := sample_runtime) sample_file).
  vm_compute. reflexivity.
Defined.

Section Rows.

Context {rt : Runtime}.

(** Row [i] of the derived table, from row [i] of the trimmed frame: the
    document number is its cell at position 2, the date comes from its
    cell at position 3, the balance and the type from its cell at
    position 13. *)
Lemma derived_row df sel pre i row :
  prepared df = Ret sel -> derive sel = Ret pre ->
  rows (iloc_from 13 df) !! i = Some row ->
  exists r,
    pre !! i = Some r
    /\ document_number r = default nan (row !! 2%nat)
    /\ parse_date (default nan (row !! 3%nat)) = Ret (document_date r)
    /\ format_balance (default nan (row !! 13%nat)) = Ret (document_balance r)
    /\ determine_doc_type (default nan (row !! 13%nat)) = Ret (document_type r).
Proof.
  intros Hsel Hpre Hrow.
  destruct (derive_columns _ _ (prepared_aligned _ _ Hsel) Hpre)
    as (Hlen & _ & Hnum & Hdate & Hbal).
  apply prepared_returned in Hsel as [-> _]. cbn [colC colD colN] in *.
  pose proof (column_lookup 2 _ _ _ Hrow) as H2.
  pose proof (column_lookup 3 _ _ _ Hrow) as H3.
  pose proof (column_lookup 13 _ _ _ Hrow) as H13.
  destruct (Forall2_lookup_l _ _ _ _ _ Hdate H3) as (r & Hr & Hd).
  destruct (Forall2_lookup_l _ _ _ _ _ Hbal H13) as (r' & Hr' & Hb & Ht).
  assert (r' = r) as -> by congruence.
  exists r. split_and!; try done.
  pose proof (fmap_lookup_field _ _ _ _ _ Hnum Hr) as Hn. congruence.
Qed.

Lemma rectangular_trimmed df : rectangular df -> rectangular (iloc_from 13 df).
Proof. unfold rectangular. cbn [rows iloc_from]. apply Forall_drop. Qed.

(** C8. For a file with one of the extensions whose frame is read and
    not empty: with fewer than 14 columns after the row trim,
    [process_file] reports too few columns; with 14 or more, whenever a
    table is returned, every row of the trimmed frame has given one row
    of the derived table, whose Document Number is the row's cell at
    position 2, whose Document Date is read from the cell at position 3
    and whose Document Balance and Type are read from the cell at
    position 13, and the Debtor References are filled from the shifted
    cells at position 0. *)
Theorem column_selection (file : UploadedFile) (df : DataFrame) :
  has_extension file -> read file = Ret df -> empty df = false ->
  ((ncols (iloc_from 13 df) < 14)%nat ->
   process_file file = Ret (Rejected InsufficientColumns))
  /\ ((14 <= ncols (iloc_from 13 df))%nat ->
      rectangular df ->
      forall output,
        process_file file = Ret (Normalized output) ->
        exists sel pre,
          prepared df = Ret sel
          /\ derive sel = Ret pre
          /\ output = filter essential pre
          /\ length pre = length (rows (iloc_from 13 df))
          /\ colA sel = shifted (column 0 (iloc_from 13 df))
          /\ debtor_reference <$> pre = forward_fill (colA sel)
          /\ forall i row,
               rows (iloc_from 13 df) !! i = Some row ->
               exists a c d n r,
                 row !! 0%nat = Some a /\ row !! 2%nat = Some c
                 /\ row !! 3%nat = Some d /\ row !! 13%nat = Some n
                 /\ column 0 (iloc_from 13 df) !! i = Some a
                 /\ pre !! i = Some r
                 /\ document_number r = c
                 /\ parse_date d = Ret (document_date r)
                 /\ format_balance n = Ret (document_balance r)
                 /\ determine_doc_type n = Ret (document_type r)).
Proof.
  intros Hext Hread He. apply supported_has_extension in Hext.
  rewrite (process_file_read _ _ Hext Hread).
  split.
  - intros Hn. by apply process_frame_narrow.
  - intros Hn Hrect output Hout.
    change (ncols (iloc_from 13 df)) with (ncols df) in Hn.
    destruct (process_frame_normalized _ _ Hout)
      as (_ & _ & sel & pre & Hsel & Hpre & ->).
    destruct (derive_columns _ _ (prepared_aligned _ _ Hsel) Hpre)
      as (Hlen & Href & _).
    exists sel, pre. split_and!; [done | done | done | | | done |].
    + rewrite Hlen, (prepared_length _ _ Hsel). cbn [rows iloc_from].
      by rewrite length_drop.
    + by apply prepared_returned in Hsel as [-> _].
    + intros i row Hrow.
      pose proof (rectangular_trimmed _ Hrect) as Hrect'.
      destruct (rectangular_lookup _ _ _ 0 Hrect' Hrow) as [a Ha];
        [change (ncols (iloc_from 13 df)) with (ncols df); lia|].
      destruct (rectangular_lookup _ _ _ 2 Hrect' Hrow) as [c Hc];
        [change (ncols (iloc_from 13 df)) with (ncols df); lia|].
      destruct (rectangular_lookup _ _ _ 3 Hrect' Hrow) as [d Hd];
        [change (ncols (iloc_from 13 df)) with (ncols df); lia|].
      destruct (rectangular_lookup _ _ _ 13 Hrect' Hrow) as [n Hcn];
        [change (ncols (iloc_from 13 df)) with (ncols df); lia|].
      destruct (derived_row _ _ _ _ _ Hsel Hpre Hrow)
        as (r & Hr & H2 & H3 & H13 & Ht).
      rewrite Hc in H2. rewrite Hd in H3. rewrite Hcn in H13, Ht.
      exists a, c, d, n, r. split_and!; try done.
      rewrite (column_lookup 0 _ _ _ Hrow). by rewrite Ha.
Qed.

End Rows.

Lemma sample_frame_rectangular : rectangular sample_frame.
Proof. unfold rectangular. vm_compute. repeat constructor. Qed.

Lemma column_selection_witness :
  exists sel pre,
    prepared sample_frame = Ret sel
    /\ derive (rt := sample_runtime) sel = Ret pre
    /\ length pre = 5%nat.
Proof.
  destruct (column_selection (rt := sample_runtime) sample_file sample_frame
              sample_file_has_extension eq_refl eq_refl) as [_ Hwide].
  destruct (Hwide ltac:(vm_compute; lia) sample_frame_rectangular
              [ mkRecord (CStr "D1") (CStr "N1") "15/01/2024" "100.00" "INV";
                mkRecord (CStr "D1") (CStr "N2") "15/01/2024" "-20.00" "CRD";
                mkRecord (CStr "D2") (CStr "N3") "soon" "1234.50" "INV" ])
    as (sel & pre & Hsel & Hpre & _ & Hlen & _).
  - vm_compute. reflexivity.
  - exists sel, pre. split_and!; [exact Hsel | exact Hpre | exact Hlen].
Defined.

Section FirstRow.

Context {rt : Runtime}.

(** The first row of the derived table has the empty string as its
    Debtor Reference, and the filter drops it. *)
Lemma derived_first_row df sel pre r :
  prepared df = Ret sel -> derive sel = Ret pre -> pre !! 0%nat = Some r ->
  debtor_reference r = CStr "" /\ essential r = false.
Proof.
  intros Hsel Hpre Hr.
  destruct (derive_columns _ _ (prepared_aligned _ _ Hsel) Hpre)
    as (Hlen & Href & _).
  assert (colA sel <> []) as Hne.
  { intros Hnil. apply lookup_lt_Some in Hr. rewrite Hlen, Hnil in Hr.
    simpl in Hr. lia. }
  assert (colA sel !! 0%nat = Some (CStr "")) as H0.
  { apply prepared_returned in Hsel as [-> _]. cbn [colA] in *.
    apply shifted_first. intros Hnil. apply Hne. by rewrite Hnil. }
  pose proof (forward_fill_lookup _ _ _ H0) as Hfill.
  pose proof (fmap_lookup_field _ _ _ _ _ Href Hr) as Hfield.
  rewrite Hfill in Hfield.
  assert (debtor_reference r = CStr "") as Hblank.
  { change (nonblank (CStr "")) with false in Hfield.
    rewrite take_0 in Hfield. by injection Hfield. }
  split; [done|]. unfold essential. by rewrite Hblank.
Qed.

Lemma filter_first_row pre :
  (forall r, pre !! 0%nat = Some r -> essential r = false) ->
  filter essential pre = filter essential (drop 1 pre).
Proof.
  destruct pre as [|r pre]; [done|]. intros Hfirst.
  rewrite filter_cons. cbn [drop].
  rewrite (Hfirst r eq_refl). by case_decide.
Qed.

(** C10. In a returned table no record comes from the first row after
    the trim: that row's Debtor Reference is the empty string after the
    shift and the fill, and the filter drops it.  A file of [R] rows
    therefore gives at most [R - 14] records, and none when [R <= 14]. *)
Theorem first_row_never_emitted (file : UploadedFile)
    (output : list NormalizedRecord) :
  process_file file = Ret (Normalized output) ->
  exists df sel pre,
    read file = Ret df
    /\ prepared df = Ret sel
    /\ derive sel = Ret pre
    /\ length pre = (length (rows df) - 13)%nat
    /\ (forall r, pre !! 0%nat = Some r ->
          debtor_reference r = CStr "" /\ essential r = false /\ r ∉ output)
    /\ output = filter essential (drop 1 pre)
    /\ (length output <= length (rows df) - 14)%nat.
Proof.
  intros Hout.
  destruct (process_file_normalized _ _ Hout)
    as (Hsup & df & sel & pre & Hread & He & Hn & Hsel & Hpre & Hfilter).
  assert (length pre = (length (rows df) - 13)%nat) as Hlen.
  { destruct (derive_columns _ _ (prepared_aligned _ _ Hsel) Hpre) as [-> _].
    by apply prepared_length. }
  assert (output = filter essential (drop 1 pre)) as Hrest.
  { rewrite Hfilter. apply filter_first_row.
    intros r Hr. by destruct (derived_first_row _ _ _ _ Hsel Hpre Hr). }
  exists df, sel, pre. split_and!; try done.
  - intros r Hr.
    destruct (derived_first_row _ _ _ _ Hsel Hpre Hr) as [Hblank Hdrop].
    split_and!; try done.
    rewrite Hfilter, list_elem_of_filter, Hdrop. by intros [? _].
  - rewrite Hrest.
    etrans; [apply length_filter|]. rewrite length_drop. lia.
Qed.

End FirstRow.

Lemma first_row_never_emitted_witness :
  exists sel pre,
    prepared sample_frame = Ret sel
    /\ derive (rt := sample_runtime) sel = Ret pre
    /\ length pre = 5%nat
    /\ (length
          [ mkRecord (CStr "D1") (CStr "N1") "15/01/2024" "100.00" "INV";
            mkRecord (CStr "D1") (CStr "N2") "15/01/2024" "-20.00" "CRD";
            mkRecord (CStr "D2") (CStr "N3") "soon" "1234.50" "INV" ]
        <= 18 - 14)%nat.
Proof.
  destruct (first_row_never_emitted (rt := sample_runtime) sample_file
              [ mkRecord (CStr "D1") (CStr "N1") "15/01/2024" "100.00" "INV";
                mkRecord (CStr "D1") (CStr "N2") "15/01/2024" "-20.00" "CRD";
                mkRecord (CStr "D2") (CStr "N3") "soon" "1234.50" "INV" ])
    as (df & sel & pre & Hread & Hsel & Hpre & Hlen & _ & _ & Hbound).
  - vm_compute. reflexivity.
  - injection Hread as <-.
    exists sel, pre. split_and!; [exact Hsel | exact Hpre | exact Hlen | exact Hbound].
Defined.

Section EndToEnd.

Context {rt : Runtime}.

(** X14. A file with one of the extensions whose frame has 15 rows and
    at least 14 columns, with a first column that holds text and with the
    texts [100] and [-20] at position 13 of its last two rows, gives a
    derived table of two rows, of types [INV] and [CRD] and balances
    [100.00] and [-20.00] in that order; the returned table is what the
    filter keeps of these two rows, so it has at most two rows, in that
    order.  (The filter always drops the first of them, whose Debtor
    Reference is the empty string.) *)
Theorem two_data_rows (file : UploadedFile) (df : DataFrame)
    (row1 row2 : list Cell) :
  has_extension file ->
  read file = Ret df ->
  length (rows df) = 15%nat ->
  (14 <= ncols df)%nat ->
  holds_text (column_dtype 0 df) = true ->
  rows df !! 13%nat = Some row1 ->
  rows df !! 14%nat = Some row2 ->
  row1 !! 13%nat = Some (CStr "100") ->
  row2 !! 13%nat = Some (CStr "-20") ->
  exists sel x1 x2,
    prepared df = Ret sel
    /\ derive sel = Ret [x1; x2]
    /\ document_type x1 = "INV" /\ document_balance x1 = "100.00"
    /\ document_type x2 = "CRD" /\ document_balance x2 = "-20.00"
    /\ process_file file = Ret (Normalized (filter essential [x1; x2]))
    /\ (length (filter essential [x1; x2]) <= 2)%nat
    /\ filter essential [x1; x2] `sublist_of` [x1; x2]
    /\ filter essential [x1; x2] = filter essential [x2].
Proof.
  intros Hext Hread Hrows Hn Htext H13 H14 Hbal1 Hbal2.
  apply supported_has_extension in Hext.
  assert (empty df = false) as He.
  { unfold empty. apply orb_false_iff. split; apply bool_decide_eq_false.
    - intros Hnil. by rewrite Hnil in Hrows.
    - lia. }
  destruct (prepared_cases df) as [[_ [sel Hsel]] | (_ & Hnum & _)];
    [|congruence].
  destruct (process_frame_normal _ _ He Hn Hsel) as (pre & Hpre & Hframe).
  assert (length pre = 2%nat) as Hlen.
  { destruct (derive_columns _ _ (prepared_aligned _ _ Hsel) Hpre) as [-> _].
    rewrite (prepared_length _ _ Hsel). lia. }
  destruct pre as [|x1 [|x2 [|]]]; try done.
  assert (rows (iloc_from 13 df) !! 0%nat = Some row1) as Hr1
    by (cbn [rows iloc_from]; by rewrite lookup_drop).
  assert (rows (iloc_from 13 df) !! 1%nat = Some row2) as Hr2
    by (cbn [rows iloc_from]; by rewrite lookup_drop).
  destruct (derived_row _ _ _ _ _ Hsel Hpre Hr1)
    as (r1 & [= <-] & _ & _ & Hb1 & Ht1).
  destruct (derived_row _ _ _ _ _ Hsel Hpre Hr2)
    as (r2 & [= <-] & _ & _ & Hb2 & Ht2).
  rewrite Hbal1 in Hb1, Ht1. rewrite Hbal2 in Hb2, Ht2.
  assert (format_balance (CStr "100") = Ret "100.00") as E1
    by (vm_compute; reflexivity).
  assert (determine_doc_type (CStr "100") = Ret "INV") as E2
    by (vm_compute; reflexivity).
  assert (format_balance (CStr "-20") = Ret "-20.00") as E3
    by (vm_compute; reflexivity).
  assert (determine_doc_type (CStr "-20") = Ret "CRD") as E4
    by (vm_compute; reflexivity).
  unfold default, id in Hb1, Ht1, Hb2, Ht2. cbn [from_option] in Hb1, Ht1, Hb2, Ht2.
  exists sel, x1, x2. split_and!.
  - exact Hsel.
  - exact Hpre.
  - congruence.
  - congruence.
  - congruence.
  - congruence.
  - by rewrite (process_file_read _ _ Hext Hread).
  - etrans; [apply length_filter|]. done.
  - apply sublist_filter.
  - apply (filter_first_row [x1; x2]). intros r [= <-].
    by destruct (derived_first_row _ _ [x1; x2] x1 Hsel Hpre eq_refl).
Qed.

End EndToEnd.

Lemma two_data_rows_witness :
  exists x1 x2,
    document_type x1 = "INV" /\ document_type x2 = "CRD"
    /\ process_file (rt := two_row_runtime) sample_file
       = Ret (Normalized (filter essential [x1; x2]))
    /\ process_file (rt := two_row_runtime) sample_file
       = Ret (Normalized
           [ mkRecord (CStr "D1") (CStr "N2") "16/01/2024" "-20.00" "CRD" ]).
Proof.
  destruct (two_data_rows (rt := two_row_runtime) sample_file two_row_frame
              (ledger_row (CStr "D1") (CStr "N1") (CStr "15/01/2024") (CStr "100"))
              (ledger_row nan (CStr "N2") (CStr "16/01/2024") (CStr "-20"))
              sample_file_has_extension eq_refl eq_refl)
    as (sel & x1 & x2 & _ & _ & Ht1 & _ & Ht2 & _ & Hfile & _);
    [vm_compute; lia | reflexivity | reflexivity | reflexivity | reflexivity
    | reflexivity |].
  exists x1, x2. split_and!; [exact Ht1 | exact Ht2 | exact Hfile |].
  vm_compute. reflexivity.
Defined.

(** C9. A file of thirteen header rows and two data rows with the texts
    [100] and [-20] in column N does not always give a table.  The file
    whose first column is empty from top to bottom has one of the
    extensions, 15 rows and 14 columns, and [process_file] returns no
    table for it, not even an empty one: step 4 raises [TypeError].  The
    file of the same shape whose first column holds the reference [D1]
    gives a derived table of two rows of types [INV] and [CRD], of which
    the filter keeps the second. *)
Theorem two_rows_without_references_raise :
  has_extension sample_file
  /\ read (rt := runtime_without_references) sample_file
     = Ret frame_without_references
  /\ well_typed frame_without_references = true
  /\ length (rows frame_without_references) = 15%nat
  /\ (14 <= ncols frame_without_references)%nat
  /\ (exists row1 row2,
        rows frame_without_references !! 13%nat = Some row1
        /\ rows frame_without_references !! 14%nat = Some row2
        /\ row1 !! 13%nat = Some (CStr "100")
        /\ row2 !! 13%nat = Some (CStr "-20"))
  /\ process_file (rt := runtime_without_references) sample_file
     = Raise TypeError
  /\ ~ (exists output,
         process_file (rt := runtime_without_references) sample_file
         = Ret (Normalized output))
  /\ well_typed two_row_frame = true
  /\ (exists sel,
        prepared two_row_frame = Ret sel
        /\ derive (rt := two_row_runtime) sel
           = Ret [ mkRecord (CStr "") (CStr "N1") "15/01/2024" "100.00" "INV";
                   mkRecord (CStr "D1") (CStr "N2") "16/01/2024" "-20.00" "CRD" ])
  /\ process_file (rt := two_row_runtime) sample_file
     = Ret (Normalized
         [ mkRecord (CStr "D1") (CStr "N2") "16/01/2024" "-20.00" "CRD" ]).
Proof.
  assert (process_file (rt := runtime_without_references) sample_file
          = Raise TypeError) as Hraise by (vm_compute; reflexivity).
  split_and!.
  - apply sample_file_has_extension.
  - reflexivity.
  - vm_compute. reflexivity.
  - reflexivity.
  - vm_compute. lia.
  - eexists _, _. split_and!; reflexivity.
  - exact Hraise.
  - rewrite Hraise. by intros [? ?].
  - vm_compute. reflexivity.
  - exists (mkSelected str_ [CStr ""; CStr "D1"]
              [CStr "N1"; CStr "N2"]
              [CStr "15/01/2024"; CStr "16/01/2024"]
              [CStr "100"; CStr "-20"]).
    split; vm_compute; reflexivity.
  - vm_compute. reflexivity.
Qed.

(** * Further properties *)

(** ** Where a Debtor Reference comes from *)

Lemma running_from_last cur seen :
  running_from cur seen = default cur (last_nonblank seen).
Proof.
  unfold running_from, last_nonblank.
  induction seen as [|val seen IH] using rev_ind; [done|].
  rewrite fold_left_app, filter_app. cbn [fold_left].
  rewrite filter_cons, filter_nil.
  destruct (nonblank val) eqn:Hval.
  - rewrite decide_True by done. by rewrite last_snoc.
  - rewrite decide_False by (intros []). by rewrite app_nil_r.
Qed.

Lemma last_nonblank_Some seen val :
  last_nonblank seen = Some val -> nonblank val = true /\ val ∈ seen.
Proof.
  unfold last_nonblank. intros Hlast.
  assert (val ∈ filter (fun v => nonblank v) seen) as Hin.
  { apply last_Some in Hlast as [l ->]. apply elem_of_app. right. by left. }
  apply list_elem_of_filter in Hin as [Hnb Hin].
  split; [by apply Is_true_true | done].
Qed.

Lemma last_nonblank_None seen val :
  last_nonblank seen = None -> val ∈ seen -> nonblank val = false.
Proof.
  unfold last_nonblank. rewrite last_None. intros Hnil Hin.
  destruct (nonblank val) eqn:Hval; [|done].
  exfalso. eapply filter_nil_not_elem_of; [exact Hnil| |exact Hin].
  cbn beta. by rewrite Hval.
Qed.

Lemma running_reference_nonblank seen :
  nonblank (running_reference seen) = true
  <-> exists val, val ∈ seen /\ nonblank val = true.
Proof.
  unfold running_reference. rewrite running_from_last.
  destruct (last_nonblank seen) as [val|] eqn:Hlast; cbn [default from_option].
  - apply last_nonblank_Some in Hlast as [Hnb Hin]. split; [eauto | done].
  - split; [done|]. intros (val & Hin & Hnb).
    by rewrite (last_nonblank_None _ _ Hlast Hin) in Hnb.
Qed.

Lemma running_reference_blank_head seen :
  running_reference (CStr "" :: seen) = running_reference seen.
Proof. done. Qed.

(** The shifted and filled column, cell by cell: below the first row,
    the cell is the last cell above it in the unshifted column that is
    present and not blank, and the empty string when there is none. *)
Lemma fill_after_shift col i :
  (S i < length col)%nat ->
  forward_fill (shifted col) !! S i
  = Some (default (CStr "") (last_nonblank (take (S i) col))).
Proof.
  intros Hi.
  destruct (lookup_lt_is_Some_2 col i) as [val Hval]; [lia|].
  assert (shifted col !! S i = Some val) as Hshift
    by (by rewrite shifted_next).
  rewrite (forward_fill_lookup _ _ _ Hshift).
  rewrite <- running_from_last. fold (running_reference (take (S i) col)).
  rewrite (take_S_r _ _ _ Hval), running_reference_snoc.
  destruct (nonblank val); [done|]. f_equal.
  destruct col as [|x col]; [done|].
  rewrite shifted_cons. cbn [take]. rewrite running_reference_blank_head.
  rewrite take_take. f_equal. f_equal. simpl in Hi. lia.
Qed.

Section Provenance.

Context {rt : Runtime}.

(** X2. For every row of the derived table below the first, the Debtor
    Reference is the last cell of column A, among the rows of the trimmed
    frame strictly above it, that is present and not blank; it is the
    empty string when there is none.  The row's own cell in column A is
    not looked at. *)
Theorem debtor_reference_from_above (df : DataFrame) (sel : Selected)
    (pre : list NormalizedRecord) (i : nat) (r : NormalizedRecord) :
  prepared df = Ret sel ->
  derive sel = Ret pre ->
  pre !! S i = Some r ->
  debtor_reference r
  = default (CStr "")
      (last_nonblank (take (S i) (column 0 (iloc_from 13 df)))).
Proof.
  intros Hsel Hpre Hr.
  destruct (derive_columns _ _ (prepared_aligned _ _ Hsel) Hpre)
    as (Hlen & Href & _).
  pose proof (fmap_lookup_field _ _ _ _ _ Href Hr) as Hfield.
  apply prepared_returned in Hsel as [-> _]. cbn [colA] in *.
  assert (S i < length (column 0 (iloc_from 13 df)))%nat as Hi.
  { apply lookup_lt_Some in Hr. rewrite Hlen in Hr.
    by rewrite shifted_length in Hr. }
  rewrite (fill_after_shift _ _ Hi) in Hfield. by injection Hfield.
Qed.

(** X3. A row of the derived table below the first is kept by the filter
    exactly when its Document Number cell (column C of the same row of
    the trimmed frame) is present and not blank and some cell of column A
    in a row strictly above it is present and not blank. *)
Theorem row_kept_iff (df : DataFrame) (sel : Selected)
    (pre : list NormalizedRecord)
    (i : nat) (r : NormalizedRecord) (row : list Cell) :
  prepared df = Ret sel ->
  derive sel = Ret pre ->
  pre !! S i = Some r ->
  rows (iloc_from 13 df) !! S i = Some row ->
  essential r = true
  <-> (exists j val, (j <= i)%nat
         /\ column 0 (iloc_from 13 df) !! j = Some val
         /\ nonblank val = true)
      /\ nonblank (default nan (row !! 2%nat)) = true.
Proof.
  intros Hsel Hpre Hr Hrow.
  destruct (derived_row _ _ _ _ _ Hsel Hpre Hrow) as (r' & Hr' & Hnum & _).
  assert (debtor_reference r
          = default (CStr "")
              (last_nonblank (take (S i) (column 0 (iloc_from 13 df)))))
    as Hdeb.
  { destruct (derive_columns _ _ (prepared_aligned _ _ Hsel) Hpre)
      as (_ & Href & _).
    pose proof (fmap_lookup_field _ _ _ _ _ Href Hr) as Hfield.
    apply prepared_returned in Hsel as [-> _]. cbn [colA] in Hfield.
    rewrite fill_after_shift in Hfield; [by injection Hfield|].
    rewrite column_length. by apply lookup_lt_Some in Hrow. }
  assert (r' = r) as -> by congruence.
  unfold essential. rewrite andb_true_iff, Hdeb, Hnum.
  rewrite <- running_from_last.
  fold (running_reference (take (S i) (column 0 (iloc_from 13 df)))).
  rewrite running_reference_nonblank.
  apply and_iff_compat_r. split.
  - intros (val & Hin & Hnb). apply list_elem_of_lookup in Hin as [j Hj].
    apply lookup_take_Some in Hj as [Hj Hlt]. exists j, val.
    split_and!; [lia | done | done].
  - intros (j & val & Hj & Hval & Hnb). exists val. split; [|done].
    apply list_elem_of_lookup. exists j. apply lookup_take_Some. split; [done | lia].
Qed.

End Provenance.

Lemma sample_derived :
  exists sel,
    prepared sample_frame = Ret sel
    /\ derive (rt := sample_runtime) sel
       = Ret [ mkRecord (CStr "") nan "" "nan" "CRD";
               mkRecord (CStr "D1") (CStr "N1") "15/01/2024" "100.00" "INV";
               mkRecord (CStr "D1") (CStr "N2") "15/01/2024" "-20.00" "CRD";
               mkRecord (CStr "D2") (CStr "N3") "soon" "1234.50" "INV";
               mkRecord (CStr "D2") nan "" "nan" "CRD" ].
Proof.
  exists (mkSelected str_
            [CStr ""; CStr "D1"; nan; CStr "D2"; nan]
            [nan; CStr "N1"; CStr "N2"; CStr "N3"; nan]
            [nan; CStr "2024-01-15"; CStr "15-Jan-2024"; CStr "soon"; nan]
            [nan; CStr "100"; CStr "-20"; CStr "1,234.5"; nan]).
  split; vm_compute; reflexivity.
Qed.

Lemma debtor_reference_from_above_witness :
  debtor_reference (mkRecord (CStr "D2") (CStr "N3") "soon" "1234.50" "INV")
  = default (CStr "")
      (last_nonblank (take 3 (column 0 (iloc_from 13 sample_frame)))).
Proof.
  destruct sample_derived as (sel & Hsel & Hpre).
  exact (debtor_reference_from_above (rt := sample_runtime)
           sample_frame sel _ 2 _ Hsel Hpre eq_refl).
Defined.

Lemma row_kept_iff_witness :
  essential (mkRecord (CStr "D2") (CStr "N3") "soon" "1234.50" "INV") = true.
Proof.
  destruct sample_derived as (sel & Hsel & Hpre).
  apply (row_kept_iff (rt := sample_runtime) sample_frame sel _ 2 _
           (ledger_row nan (CStr "N3") (CStr "soon") (CStr "1,234.5"))
           Hsel Hpre eq_refl eq_refl).
  split; [|vm_compute; reflexivity].
  exists 2%nat, (CStr "D2").
  split_and!; [lia | reflexivity | vm_compute; reflexivity].
Defined.

(** ** The filled column *)

Lemma filled_idempotent cur col : filled cur (filled cur col) = filled cur col.
Proof.
  revert cur. induction col as [|val col IH]; intros cur; [done|]. simpl.
  destruct (nonblank val) eqn:Hval; simpl.
  - by rewrite Hval, IH.
  - destruct (nonblank cur); by rewrite IH.
Qed.

Lemma filled_settled cur col :
  nonblank cur = true \/ cur = CStr "" ->
  Forall (fun val => nonblank val = true \/ val = CStr "") (filled cur col).
Proof.
  revert cur. induction col as [|val col IH]; intros cur Hcur; simpl.
  - constructor.
  - destruct (nonblank val) eqn:Hval; constructor; auto.
Qed.

(** X4. Filling a column a second time changes nothing, and a filled
    column holds no missing and no whitespace-only cell: each cell is
    either present and not blank or exactly the empty string. *)
Theorem forward_fill_settles (col : list Cell) :
  forward_fill (forward_fill col) = forward_fill col
  /\ Forall (fun val => nonblank val = true \/ val = CStr "") (forward_fill col)
  /\ Forall (fun val => notna val = true) (forward_fill col).
Proof.
  rewrite !forward_fill_filled. split_and!.
  - apply filled_idempotent.
  - apply filled_settled. by right.
  - eapply Forall_impl; [apply filled_settled; by right|].
    intros val [Hnb | ->]; [|done].
    by apply nonblank_iff in Hnb as [? _].
Qed.

(** ** What the returned table depends on *)

Lemma apply_tail {A B} (f : A -> Exc B) (col : list A) (ys : list B) :
  apply f col = Ret ys -> apply f (drop 1 col) = Ret (drop 1 ys).
Proof.
  destruct col as [|x col]; simpl.
  - by intros [= <-].
  - destruct (f x) as [y|]; [|done]. simpl.
    destruct (apply f col) as [ys'|] eqn:Hcol; [|done]. simpl.
    by intros [= <-].
Qed.

Lemma records_tail ref num date bal typ :
  drop 1 (records ref num date bal typ)
  = records (drop 1 ref) (drop 1 num) (drop 1 date) (drop 1 bal) (drop 1 typ).
Proof.
  destruct ref as [|? ref]; [done|].
  destruct num as [|? num]; [by destruct ref|].
  destruct date as [|? date]; [by destruct ref, num|].
  destruct bal as [|? bal]; [by destruct ref, num, date|].
  destruct typ as [|? typ]; [by destruct ref, num, date, bal|].
  done.
Qed.

Lemma forward_fill_shift_tail col :
  drop 1 (forward_fill (shifted col))
  = forward_fill (take (length col - 1) col).
Proof.
  rewrite !forward_fill_filled. destruct col as [|x col]; [done|].
  rewrite shifted_cons. simpl. by rewrite Nat.sub_0_r.
Qed.

Section Dependence.

Context {rt : Runtime}.

Lemma derive_tail df sel pre :
  prepared df = Ret sel -> derive sel = Ret pre ->
  derive (realigned df) = Ret (drop 1 pre).
Proof.
  intros Hsel. apply prepared_returned in Hsel as [-> _].
  unfold derive, realigned. cbn [colA colC colD colN].
  destruct (apply determine_doc_type _) as [types|] eqn:Ht; [|done].
  destruct (apply format_balance _) as [balances|] eqn:Hb; [|done].
  destruct (apply parse_date _) as [dates|] eqn:Hd; [|done].
  simpl. intros [= <-].
  rewrite (apply_tail _ _ _ Ht), (apply_tail _ _ _ Hb), (apply_tail _ _ _ Hd).
  simpl. by rewrite records_tail, forward_fill_shift_tail, column_length.
Qed.

(** Steps 9 to 13 read the cells of the four columns and nothing else. *)
Lemma derive_same_cells df1 df2 :
  same_cells df1 df2 -> derive df1 = derive df2.
Proof. intros (HA & HC & HD & HN). unfold derive. by rewrite HA, HC, HD, HN. Qed.

(** A returned table is the filter of what steps 9 to 13 derive from
    the realigned frame. *)
Lemma returned_table_realigned_cells df output :
  process_frame df = Ret (Normalized output) ->
  exists out,
    derive (realigned df) = Ret out /\ output = filter essential out.
Proof.
  intros Hframe.
  destruct (process_frame_normalized _ _ Hframe)
    as (_ & _ & sel & pre & Hsel & Hpre & ->).
  exists (drop 1 pre). split; [by eapply derive_tail|].
  apply filter_first_row.
  intros r Hr. by destruct (derived_first_row _ _ _ _ Hsel Hpre Hr).
Qed.

(** X5. A returned table is obtained without any shift from the
    realigned frame: fill its column A, derive the other fields row by
    row, keep the rows with both keys.  So each returned record joins the
    document number, date and balance of one row with the last reference
    found in column A strictly above it. *)
Theorem returned_table_realigned (df : DataFrame)
    (output : list NormalizedRecord) :
  process_frame df = Ret (Normalized output) ->
  exists out,
    derive (realigned df) = Ret out
    /\ debtor_reference <$> out = forward_fill (colA (realigned df))
    /\ document_number <$> out = colC (realigned df)
    /\ output = filter essential out.
Proof.
  intros Hframe.
  destruct (process_frame_normalized _ _ Hframe)
    as (_ & _ & sel & pre & Hsel & Hpre & ->).
  pose proof (derive_tail _ _ _ Hsel Hpre) as Hout.
  assert (aligned (realigned df)) as Hal.
  { unfold aligned, realigned. cbn [colA colC colD colN].
    rewrite !length_drop, length_take, !column_length. lia. }
  destruct (derive_columns _ _ Hal Hout) as (_ & Href & Hnum & _).
  exists (drop 1 pre). split_and!; try done.
  apply filter_first_row.
  intros r Hr. by destruct (derived_first_row _ _ _ _ Hsel Hpre Hr).
Qed.

(** X6. Two returned tables are equal as soon as the realigned frames
    have the same cells: the cells of the thirteen leading rows, the
    columns other than A, C, D and N, the last cell of column A and the
    first cells of columns C, D and N are in no returned record.  (The
    leading rows do count in the dtype of column A, which decides whether
    a table is returned at all.) *)
Theorem returned_table_depends_on (df1 df2 : DataFrame)
    (output1 output2 : list NormalizedRecord) :
  process_frame df1 = Ret (Normalized output1) ->
  process_frame df2 = Ret (Normalized output2) ->
  same_cells (realigned df1) (realigned df2) ->
  output1 = output2.
Proof.
  intros Hframe1 Hframe2 Hsame.
  destruct (returned_table_realigned_cells df1 output1 Hframe1)
    as (out1 & Hout1 & ->).
  destruct (returned_table_realigned_cells df2 output2 Hframe2)
    as (out2 & Hout2 & ->).
  rewrite (derive_same_cells _ _ Hsame), Hout2 in Hout1.
  by injection Hout1 as ->.
Qed.

End Dependence.

Lemma forward_fill_settles_witness :
  forward_fill (forward_fill [nan; CStr "D1"; CStr " "; nan; CStr "D2"; nan])
  = [CStr ""; CStr "D1"; CStr "D1"; CStr "D1"; CStr "D2"; CStr "D2"].
Proof.
  destruct (forward_fill_settles [nan; CStr "D1"; CStr " "; nan; CStr "D2"; nan])
    as [-> _].
  vm_compute. reflexivity.
Defined.

Lemma returned_table_depends_on_witness :
  exists output1 output2,
    process_frame (rt := sample_runtime) sample_frame_variant
    = Ret (Normalized output1)
    /\ process_frame (rt := sample_runtime) sample_frame
       = Ret (Normalized output2)
    /\ output1 = output2.
Proof.
  assert (process_frame (rt := sample_runtime) sample_frame_variant
          = Ret (Normalized
              [ mkRecord (CStr "D1") (CStr "N1") "15/01/2024" "100.00" "INV";
                mkRecord (CStr "D1") (CStr "N2") "15/01/2024" "-20.00" "CRD";
                mkRecord (CStr "D2") (CStr "N3") "soon" "1234.50" "INV" ]))
    as Hvariant by (vm_compute; reflexivity).
  assert (process_frame (rt := sample_runtime) sample_frame
          = Ret (Normalized
              [ mkRecord (CStr "D1") (CStr "N1") "15/01/2024" "100.00" "INV";
                mkRecord (CStr "D1") (CStr "N2") "15/01/2024" "-20.00" "CRD";
                mkRecord (CStr "D2") (CStr "N3") "soon" "1234.50" "INV" ]))
    as Hsample by (vm_compute; reflexivity).
  eexists _, _. split; [exact Hvariant|]. split; [exact Hsample|].
  apply (returned_table_depends_on (rt := sample_runtime)
           sample_frame_variant sample_frame _ _ Hvariant Hsample).
  split_and!; vm_compute; reflexivity.
Defined.

Lemma returned_table_realigned_witness :
  exists out,
    derive (rt := sample_runtime) (realigned sample_frame) = Ret out
    /\ [ mkRecord (CStr "D1") (CStr "N1") "15/01/2024" "100.00" "INV";
         mkRecord (CStr "D1") (CStr "N2") "15/01/2024" "-20.00" "CRD";
         mkRecord (CStr "D2") (CStr "N3") "soon" "1234.50" "INV" ]
       = filter essential out.
Proof.
  destruct (returned_table_realigned (rt := sample_runtime) sample_frame
              [ mkRecord (CStr "D1") (CStr "N1") "15/01/2024" "100.00" "INV";
                mkRecord (CStr "D1") (CStr "N2") "15/01/2024" "-20.00" "CRD";
                mkRecord (CStr "D2") (CStr "N3") "soon" "1234.50" "INV" ])
    as (out & Hout & _ & _ & Hframe); [vm_compute; reflexivity |].
  exists out. split; [exact Hout | exact Hframe].
Defined.

(** ** Dates that are already written day first *)

Lemma first_some_head {A B} (f : A -> option B) (l : list A) x y :
  head l = Some x -> f x = Some y -> first_some f l = Some y.
Proof. destruct l as [|x' l]; [done|]. intros [= ->] Hx. simpl. by rewrite Hx. Qed.

Lemma match_format_head dir ds l acc set rest res :
  head (alternatives dir l) = Some (set, rest) ->
  match_format ds rest (set acc) = Some res ->
  match_format (dir :: ds) l acc = Some res.
Proof.
  intros Hhead Hrest. cbn [match_format].
  by apply (first_some_head _ _ (set, rest)).
Qed.

(** The first alternative of [%d] on a two-digit day, and of [%m] on a
    two-digit month, is the whole two digits. *)
Lemma day_head day rest :
  1 <= day <= 31 ->
  head (alternatives Dd (chars (zero_pad 2 day) ++ rest))
  = Some (set_day day, rest).
Proof.
  intros Hday. assert (day ∈ seqZ 1 31) as Hin by (apply elem_of_seqZ; lia).
  vm_compute in Hin.
  repeat (apply elem_of_cons in Hin as [-> | Hin]; [vm_compute; reflexivity|]).
  by apply elem_of_nil in Hin.
Qed.

Lemma month_head mon rest :
  1 <= mon <= 12 ->
  head (alternatives Dm (chars (zero_pad 2 mon) ++ rest))
  = Some (set_month mon, rest).
Proof.
  intros Hmon. assert (mon ∈ seqZ 1 12) as Hin by (apply elem_of_seqZ; lia).
  vm_compute in Hin.
  repeat (apply elem_of_cons in Hin as [-> | Hin]; [vm_compute; reflexivity|]).
  by apply elem_of_nil in Hin.
Qed.

Lemma slash_head rest :
  head (alternatives (Lit "/") ("/"%char :: rest)) = Some (id, rest).
Proof. reflexivity. Qed.

Lemma year_head y :
  1 <= y <= 9999 ->
  alternatives DY (chars (zero_pad 4 y)) = [(set_year y, [])].
Proof.
  intros Hy.
  assert (year_reads_back y = true) as Hback.
  { assert (forallb year_reads_back (seqZ 1 9999) = true) as Hall
      by (vm_compute; reflexivity).
    rewrite forallb_forall in Hall. apply Hall.
    apply list_elem_of_In, elem_of_seqZ. lia. }
  unfold year_reads_back, all_digits in Hback.
  apply andb_true_iff in Hback as [Hdig Hval].
  apply andb_true_iff in Hdig as [Hlen Hdig].
  apply bool_decide_eq_true in Hlen. apply Z.eqb_eq in Hval.
  destruct (chars (zero_pad 4 y)) as [|a [|b [|c [|d [|]]]]]; try done.
  cbn [forallb] in Hdig. cbn [alternatives].
  repeat (apply andb_true_iff in Hdig as [? Hdig]).
  by repeat match goal with H : is_digit _ = true |- _ => rewrite H; clear H end;
     cbn [andb]; rewrite Hval.
Qed.

Lemma strptime_dmy d :
  valid_date d = true -> 1000 <= year d ->
  strptime (strftime_dmy d) "%d/%m/%Y" = Ret d.
Proof.
  intros Hvalid Hfour. unfold strptime.
  change (directives (chars "%d/%m/%Y")) with [Dd; Lit "/"; Dm; Lit "/"; DY].
  pose proof Hvalid as Hv. unfold valid_date in Hv.
  rewrite !andb_true_iff, !Z.leb_le in Hv.
  destruct Hv as [[[[[Hy1 Hy2] Hm1] Hm2] Hd1] Hd2].
  assert (day d <= 31) as Hd3.
  { unfold days_in_month in Hd2.
    repeat destruct (_ =? _); repeat destruct (is_leap _); simpl in Hd2; lia. }
  assert (match_format [Dd; Lit "/"; Dm; Lit "/"; DY]
            (chars (strftime_dmy d)) (mkDate 1900 1 1) = Some (d, [])) as ->.
  { rewrite (strftime_dmy_padded d Hvalid Hfour), !chars_append.
    change (chars "/") with ["/"%char]. cbn [app].
    eapply match_format_head; [apply day_head; lia|].
    eapply match_format_head; [apply slash_head|].
    eapply match_format_head; [apply month_head; lia|].
    eapply match_format_head; [apply slash_head|].
    cbn [match_format]. rewrite year_head by lia. cbn [first_some match_format].
    by destruct d. }
  by rewrite Hvalid.
Qed.

Lemma digit_not_space c : is_digit c = true -> is_space c = false.
Proof.
  unfold is_digit, is_space. cbv zeta.
  rewrite andb_true_iff, !N.leb_le. intros [H1 H2].
  repeat (apply orb_false_iff; split); rewrite ?andb_false_iff, ?N.leb_gt, ?N.eqb_neq; lia.
Qed.

Lemma is_dmy_strip s : is_dmy s = true -> strip s = s.
Proof.
  unfold is_dmy, strip. rewrite <- (text_chars s) at 3.
  destruct (chars s) as [|d1 [|d2 [|s1 [|m1 [|m2 [|s2 [|y1 [|y2 [|y3 [|y4 [|]]]]]]]]]]];
    try done.
  rewrite !andb_true_iff. intros [[[[[[[[[H1 _] _] _] _] _] _] _] _] H4].
  apply digit_not_space in H1, H4.
  cbn [lstrip]. rewrite H1. unfold rstrip. cbn [rev app lstrip]. by rewrite H4.
Qed.

Section DayFirst.

Context {rt : Runtime}.

(** X7. A date that is already written as day, month and four-digit
    year with slashes comes out unchanged, whatever the fallback parser
    would make of it: the date helper applied to its own output for a
    calendar date from the year 1000 on returns that output. *)
Theorem parse_date_day_first_unchanged (d : Date) :
  valid_date d = true -> 1000 <= year d ->
  parse_date (CStr (strftime_dmy d)) = Ret (strftime_dmy d).
Proof.
  intros Hvalid Hfour.
  pose proof (strftime_dmy_shape _ Hvalid Hfour) as Hshape.
  pose proof (is_dmy_strip _ Hshape) as Hstrip.
  rewrite parse_date_nonblank; [|done|].
  - unfold date_formats. cbn [for_formats py_str].
    by rewrite (strptime_dmy _ Hvalid Hfour).
  - cbn [py_str]. rewrite Hstrip. intros Hnil.
    by rewrite Hnil in Hshape.
Qed.

End DayFirst.

Lemma parse_date_day_first_unchanged_witness :
  parse_date (rt := raising_runtime) (CStr "03/04/2024") = Ret "03/04/2024".
Proof.
  apply (parse_date_day_first_unchanged (rt := raising_runtime)
           (mkDate 2024 4 3) eq_refl).
  simpl. lia.
Defined.

(** ** Month-first dates *)

Lemma lstrip_nil space l :
  lstrip space l = [] -> Forall (fun c => space c = true) l.
Proof.
  induction l as [|c l IH]; simpl; [constructor|].
  destruct (space c) eqn:Hc; [|done]. intros Hl. constructor; auto.
Qed.

Lemma lstrip_all space l :
  Forall (fun c => space c = true) l -> lstrip space l = [].
Proof. induction 1 as [|c l Hc _ IH]; simpl; [done|]. by rewrite Hc. Qed.

Lemma chars_text l : chars (text l) = l.
Proof. apply list_ascii_of_string_of_list_ascii. Qed.

(** A text with a character that is not whitespace is not blank. *)
Lemma strip_nonempty_char s c :
  c ∈ chars s -> is_space c = false -> strip s <> "".
Proof.
  intros Hin Hc Hstrip. unfold strip in Hstrip.
  assert (rstrip is_space (lstrip is_space (chars s)) = []) as Hnil.
  { rewrite <- (chars_text (rstrip _ _)), Hstrip. done. }
  unfold rstrip in Hnil.
  assert (lstrip is_space (rev (lstrip is_space (chars s))) = []) as Hrev.
  { rewrite <- (rev_involutive (lstrip _ (rev _))), Hnil. done. }
  apply lstrip_nil, Forall_rev in Hrev. rewrite rev_involutive in Hrev.
  assert (lstrip is_space (chars s) = []) as Hall.
  { destruct (lstrip is_space (chars s)) as [|x l] eqn:Hl; [done|].
    exfalso. inversion Hrev as [|? ? Hx _]; subst.
    revert Hl. clear -Hx. induction (chars s) as [|y k IH]; simpl; [done|].
    destruct (is_space y) eqn:Hy; [done|]. intros [= -> _]. congruence. }
  apply lstrip_nil in Hall. rewrite Forall_forall in Hall.
  specialize (Hall c Hin). congruence.
Qed.

(** On a month, a slash, a day past the twelfth, a slash and a year, the
    three formats before month/day/year do not match and month/day/year
    does. *)
Lemma month_first_formats (width : nat) (mon dd y : Z) (yl : list ascii) :
  width = 1%nat \/ width = 2%nat ->
  1 <= mon <= 12 -> 13 <= dd <= 31 ->
  alternatives DY yl = [(set_year y, [])] ->
  let l := (chars (zero_pad width mon) ++ "/"%char
            :: chars (zero_pad 2 dd) ++ "/"%char :: yl)%list in
  match_format (directives (chars "%d/%m/%Y")) l (mkDate 1900 1 1) = None
  /\ match_format (directives (chars "%Y-%m-%d")) l (mkDate 1900 1 1) = None
  /\ match_format (directives (chars "%d-%m-%Y")) l (mkDate 1900 1 1) = None
  /\ match_format (directives (chars "%m/%d/%Y")) l (mkDate 1900 1 1)
     = Some (mkDate y mon dd, []).
Proof.
  intros Hw Hmon Hdd Hyear.
  assert (mon ∈ seqZ 1 12) as Hm by (apply elem_of_seqZ; lia).
  assert (dd ∈ seqZ 13 19) as Hd by (apply elem_of_seqZ; lia).
  vm_compute in Hm, Hd.
  destruct Hw as [-> | ->];
    repeat (apply elem_of_cons in Hm as [-> | Hm]);
    try (by apply elem_of_nil in Hm);
    repeat (apply elem_of_cons in Hd as [-> | Hd]);
    try (by apply elem_of_nil in Hd);
    (split_and!; [reflexivity | reflexivity | reflexivity |]);
    change (directives (chars "%m/%d/%Y")) with [Dm; Lit "/"; Dd; Lit "/"; DY];
    (eapply match_format_head; [reflexivity|]);
    (eapply match_format_head; [reflexivity|]);
    (eapply match_format_head; [reflexivity|]);
    (eapply match_format_head; [reflexivity|]);
    cbn [match_format]; rewrite Hyear; reflexivity.
Qed.

Lemma chars_zero_pad_digit width z :
  0 <= z -> exists c, c ∈ chars (zero_pad width z) /\ is_digit c = true.
Proof.
  intros Hz. unfold zero_pad. cbv zeta. rewrite chars_append.
  destruct (Z_to_string_digits z Hz) as [Hne Hdig].
  destruct (chars (Z_to_string z)) as [|c l] eqn:Hc.
  - exfalso. apply Hne. by rewrite <- (text_chars (Z_to_string z)), Hc.
  - exists c. split; [apply elem_of_app; right; by left|].
    simpl in Hdig. by apply andb_true_iff in Hdig as [? _].
Qed.

Section MonthFirst.

Context {rt : Runtime}.

(** X8. A date written month first, as month (one or two digits), slash,
    two-digit day, slash, four-digit year, is recognised and rewritten day
    first when its day is past the twelfth.  (With a day up to the
    twelfth the same text is a day-first date and is read as one.) *)
Theorem parse_date_month_first (width : nat) (mon dd y : Z) :
  width = 1%nat \/ width = 2%nat ->
  valid_date (mkDate y mon dd) = true -> 13 <= dd -> 1000 <= y ->
  parse_date
    (CStr (zero_pad width mon ++ "/" ++ zero_pad 2 dd ++ "/" ++ zero_pad 4 y))
  = Ret (strftime_dmy (mkDate y mon dd)).
Proof.
  intros Hw Hvalid Hdd Hy.
  pose proof Hvalid as Hv. unfold valid_date in Hv. cbn [year month day] in Hv.
  rewrite !andb_true_iff, !Z.leb_le in Hv.
  destruct Hv as [[[[[Hy1 Hy2] Hm1] Hm2] Hd1] Hd2].
  assert (dd <= 31) as Hd3.
  { unfold days_in_month in Hd2.
    repeat destruct (_ =? _); repeat destruct (is_leap _); simpl in Hd2; lia. }
  set (s := zero_pad width mon ++ "/" ++ zero_pad 2 dd ++ "/" ++ zero_pad 4 y).
  assert (chars s = (chars (zero_pad width mon) ++ "/"%char
                     :: chars (zero_pad 2 dd) ++ "/"%char
                     :: chars (zero_pad 4 y))%list) as Hchars
    by (unfold s; by rewrite !chars_append).
  destruct (month_first_formats width mon dd y (chars (zero_pad 4 y)) Hw)
    as (H1 & H2 & H3 & H4); [lia | lia | apply year_head; lia |].
  rewrite <- Hchars in H1, H2, H3, H4.
  rewrite parse_date_nonblank; [|done|].
  - unfold date_formats. cbn [for_formats py_str]. unfold strptime at 1.
    rewrite H1. cbn [try_except mbind Exc_bind]. unfold strptime at 1.
    rewrite H2. cbn [try_except mbind Exc_bind]. unfold strptime at 1.
    rewrite H3. cbn [try_except mbind Exc_bind]. unfold strptime at 1.
    rewrite H4, Hvalid. reflexivity.
  - cbn [py_str].
    destruct (chars_zero_pad_digit width mon) as (c & Hc & Hdig); [lia|].
    apply (strip_nonempty_char s c); [|by apply digit_not_space].
    rewrite Hchars. apply elem_of_app. by left.
Qed.

End MonthFirst.

Lemma parse_date_month_first_witness :
  parse_date (rt := raising_runtime) (CStr "4/25/2024") = Ret "25/04/2024".
Proof.
  apply (parse_date_month_first (rt := raising_runtime) 1 4 25 2024);
    [by left | reflexivity | lia | lia].
Defined.

(** ** Type and balance agree *)

Lemma hundredths_zero e : hundredths 0 e = 0.
Proof.
  unfold hundredths. destruct (0 <=? e) eqn:He; [done|].
  apply Z.leb_gt in He. unfold round_half_even.
  rewrite Z.mul_0_l, Z.div_0_l, Zmod_0_l by (apply Z.pow_nonzero; lia).
  rewrite Z.mul_0_r.
  destruct (Z.ltb_spec 0 (2 ^ (- e))) as [|Hle]; [done|].
  pose proof (Z.pow_pos_nonneg 2 (- e)). lia.
Qed.

Lemma Z_to_string_first z :
  0 <= z -> exists c rest, Z_to_string z = String c rest /\ is_digit c = true.
Proof.
  intros Hz. destruct (Z_to_string_digits z Hz) as [Hne Hdig].
  destruct (Z_to_string z) as [|c rest]; [done|].
  exists c, rest. split; [done|].
  simpl in Hdig. by apply andb_true_iff in Hdig as [? _].
Qed.

(** X9. The two derived columns agree.  The type is always [INV] or
    [CRD]; with [CRD] the balance is [nan] or starts with a minus sign;
    with [INV] the balance does not start with a minus sign, unless it is
    [-0.00], the balance of a negative zero. *)
Theorem type_agrees_with_balance (val : Cell) (typ bal : string) :
  determine_doc_type val = Ret typ ->
  format_balance val = Ret bal ->
  (typ = "INV" \/ typ = "CRD")
  /\ (typ = "CRD" -> bal = "nan" \/ exists rest, bal = "-" ++ rest)
  /\ (typ = "INV" -> bal = "-0.00" \/ forall rest, bal <> "-" ++ rest).
Proof.
  pose proof (balance_from_parse val) as Hboth.
  destruct (py_float (unformatted val)) as [x|exn] eqn:Hparse.
  - destruct Hboth as [-> ->]. intros [= <-] [= <-].
    destruct x as [|neg|neg m e]; cbn [float_ge0 format_2f].
    + split_and!; [by right | by left | done].
    + destruct neg; cbn [negb].
      * split_and!; [by right | right; by exists "inf" | done].
      * split_and!; [by left | done | by right].
    + pose proof (py_float_finite _ _ _ _ Hparse) as Hm.
      destruct neg; cbn [negb orb].
      * destruct (Z.eqb_spec m 0) as [-> | Hne].
        -- rewrite hundredths_zero. split_and!; [by left | done | by left].
        -- split_and!; [by right | right; by eexists | done].
      * pose proof (hundredths_nonneg m e Hm) as Hh.
        destruct (Z_to_string_first (hundredths m e / 100)) as (c & rest & Hc & Hdig);
          [apply Z.div_pos; lia|].
        split_and!; [by left | done |]. intros _. right. intros rest'.
        unfold fixed2. rewrite Hc. cbn [append]. intros [= -> _]. done.
  - destruct Hboth as [-> ->]. intros [= <-] [= <-].
    split_and!; [by left | done | by right].
Qed.

Lemma type_agrees_with_balance_witness :
  "-0.00" = "nan" \/ exists rest, "-0.00" = "-" ++ rest.
Proof.
  apply (type_agrees_with_balance (CStr "-$0.004") "CRD" "-0.00");
    [vm_compute; reflexivity | vm_compute; reflexivity | reflexivity].
Defined.

(** ** Whole-number balances *)

(** Reading the digits written for a positive number gives it back. *)
Lemma digits_of_uint_acc u acc :
  fold_left (fun a c => 10 * a + digit_val c)
            (chars (NilEmpty.string_of_uint u)) (Z.pos acc)
  = Z.pos (Pos.of_uint_acc u acc).
Proof.
  revert acc.
  induction u as [|u IH|u IH|u IH|u IH|u IH|u IH|u IH|u IH|u IH|u IH];
    intros acc; [reflexivity|..];
    cbn [NilEmpty.string_of_uint chars list_ascii_of_string fold_left
         Pos.of_uint_acc];
    rewrite <- IH; f_equal;
    match goal with
    | |- context [digit_val ?c] =>
        let v := eval vm_compute in (digit_val c) in change (digit_val c) with v
    end; lia.
Qed.

Lemma digits_of_uint u :
  digits_value (chars (NilEmpty.string_of_uint u)) = Z.of_N (Pos.of_uint u).
Proof.
  unfold digits_value.
  induction u as [|u IH|u IH|u IH|u IH|u IH|u IH|u IH|u IH|u IH|u IH];
    [reflexivity | exact IH |..];
    cbn [NilEmpty.string_of_uint chars list_ascii_of_string fold_left
         Pos.of_uint Z.of_N];
    rewrite <- digits_of_uint_acc; f_equal.
Qed.

Lemma Z_to_string_pos p :
  Z_to_string (Z.pos p) = NilEmpty.string_of_uint (Pos.to_uint p).
Proof.
  unfold Z_to_string, Z.to_int, NilZero.string_of_int, NilZero.string_of_uint.
  pose proof (DecimalPos.Unsigned.to_uint_nonnil p).
  by destruct (Pos.to_uint p).
Qed.

Lemma Z_to_string_neg p : Z_to_string (Z.neg p) = "-" ++ Z_to_string (Z.pos p).
Proof. reflexivity. Qed.

Lemma digits_value_Z_to_string p :
  digits_value (chars (Z_to_string (Z.pos p))) = Z.pos p.
Proof. by rewrite Z_to_string_pos, digits_of_uint, DecimalPos.Unsigned.of_to. Qed.

(** What [float] does with a run of digits. *)
Lemma forallb_digits l :
  forallb is_digit l = true -> Forall (fun c => is_digit c = true) l.
Proof.
  intros H. apply Forall_forall. intros c Hc.
  rewrite forallb_forall in H. apply H. by apply list_elem_of_In.
Qed.

Lemma digit_not_c_space c : is_digit c = true -> is_c_space c = false.
Proof.
  unfold is_digit, is_c_space. cbv zeta.
  rewrite andb_true_iff, !N.leb_le. intros [Hlo Hhi].
  destruct (N.leb_spec 9 (code c)), (N.leb_spec (code c) 13),
    (N.eqb_spec (code c) 32); simpl; try done; lia.
Qed.

Lemma digit_not_underscore c : is_digit c = true -> c <> "_"%char.
Proof. by intros Hc ->. Qed.

Lemma drop_underscores_digits prev l :
  prev <> Some "_"%char -> Forall (fun c => is_digit c = true) l ->
  drop_underscores prev l = Some l.
Proof.
  intros Hprev Hl. revert prev Hprev.
  induction Hl as [|c l Hc _ IH]; intros prev Hprev; simpl.
  - by rewrite decide_False.
  - rewrite decide_False by by apply digit_not_underscore.
    rewrite bool_decide_eq_false_2 by done. cbn [andb].
    rewrite IH; [done|]. intros [= ->]. done.
Qed.

Lemma lstrip_head space c l : space c = false -> lstrip space (c :: l) = c :: l.
Proof. intros Hc. simpl. by rewrite Hc. Qed.

Lemma strip_none space l :
  Forall (fun c => space c = false) l ->
  rstrip space (lstrip space l) = l.
Proof.
  intros Hl.
  assert (forall k, Forall (fun c => space c = false) k -> lstrip space k = k) as Hid.
  { intros k [|c k' Hc _]; [done | by apply lstrip_head]. }
  unfold rstrip. rewrite (Hid l Hl), Hid by by apply Forall_rev.
  apply rev_involutive.
Qed.

Lemma span_digits_all l :
  Forall (fun c => is_digit c = true) l -> span_digits l = (l, []).
Proof. induction 1 as [|c l Hc _ IH]; simpl; [done|]. by rewrite Hc, IH. Qed.

Lemma take_sign_digit c l :
  is_digit c = true -> take_sign (c :: l) = (false, c :: l).
Proof. destruct c as [[|] [|] [|] [|] [|] [|] [|] [|]]; done. Qed.

Lemma parse_decimal_digits neg l :
  l <> [] -> Forall (fun c => is_digit c = true) l ->
  parse_decimal neg l = Some (binary64_round neg (digits_value l) 1).
Proof.
  intros Hne Hl. unfold parse_decimal.
  rewrite (span_digits_all l Hl), app_nil_r.
  destruct l as [|c l']; [done|].
  cbn [take_exponent length Z.of_nat Z.sub Z.opp Z.leb Z.compare].
  by rewrite Z.pow_0_r, Z.mul_1_r.
Qed.

(** A whole number below [2^53] is a float; a hundred times it is a
    whole number too. *)
Lemma round_half_even_exact q d : 0 < d -> round_half_even (q * d) d = q.
Proof.
  intros Hd. unfold round_half_even.
  rewrite Z.div_mul, Z.mod_mul by lia.
  destruct (Z.ltb_spec (2 * 0) d); [done | lia].
Qed.

Lemma binary64_round_whole neg n :
  0 < n < 2 ^ 53 ->
  exists m e,
    binary64_round neg n 1 = FFin neg m e /\ e <= 0 /\ m = n * 2 ^ (- e).
Proof.
  intros [Hpos Hlt]. unfold binary64_round.
  destruct (Z.eqb_spec n 0) as [|_]; [lia|].
  change (Z.log2 1) with 0. rewrite Z.sub_0_r.
  pose proof (Z.log2_nonneg n) as Hl0.
  destruct (Z.log2_spec n Hpos) as [Hlo Hhi].
  assert (Z.log2 n < 53) as Hl53 by by apply Z.log2_lt_pow2.
  assert (pow2_le 1 (Z.log2 n) n = true) as ->.
  { unfold pow2_le. destruct (Z.leb_spec 0 (Z.log2 n)); [|lia].
    apply Z.leb_le. lia. }
  cbv zeta.
  rewrite (Z.max_l (Z.log2 n - 52) (-1074)) by lia.
  set (e := Z.log2 n - 52).
  assert (scaled_round n 1 e = n * 2 ^ (- e)) as Hm.
  { unfold scaled_round. destruct (Z.leb_spec 0 e).
    - assert (e = 0) as -> by lia. change (- 0) with 0.
      rewrite Z.pow_0_r, !Z.mul_1_r.
      rewrite <- (Z.mul_1_r n) at 1. by apply round_half_even_exact.
    - rewrite <- (Z.mul_1_r (n * _)) at 1. by apply round_half_even_exact. }
  rewrite Hm.
  assert (n * 2 ^ (- e) < 2 ^ 53) as Hm53.
  { replace (2 ^ 53) with (2 ^ Z.succ (Z.log2 n) * 2 ^ (- e)).
    - apply Z.mul_lt_mono_pos_r; [apply Z.pow_pos_nonneg; lia | done].
    - rewrite <- Z.pow_add_r by lia. f_equal. lia. }
  assert (2 ^ 53 < 2 ^ 1024) as Hbig by (vm_compute; reflexivity).
  assert ((0 <=? e) && (2 ^ 1024 <=? n * 2 ^ (- e) * 2 ^ e) = false) as ->.
  { destruct (Z.leb_spec 0 e); [|done].
    assert (e = 0) as -> by lia. change (- 0) with 0.
    rewrite Z.pow_0_r, !Z.mul_1_r. cbn [andb]. apply Z.leb_gt. lia. }
  destruct (Z.eqb_spec (n * 2 ^ (- e)) (2 ^ 53)) as [Heq|_]; [lia|].
  exists (n * 2 ^ (- e)), e. split_and!; [done | lia | done].
Qed.

Lemma hundredths_whole n e :
  e <= 0 -> hundredths (n * 2 ^ (- e)) e = n * 100.
Proof.
  intros He. unfold hundredths. destruct (Z.leb_spec 0 e).
  - assert (e = 0) as -> by lia. change (- 0) with 0.
    by rewrite !Z.pow_0_r, !Z.mul_1_r.
  - replace (n * 2 ^ (- e) * 100) with (n * 100 * 2 ^ (- e)) by lia.
    apply round_half_even_exact, Z.pow_pos_nonneg; lia.
Qed.

Lemma py_float_whole (neg : bool) (p : positive) :
  py_float ((if neg then "-" else "") ++ Z_to_string (Z.pos p))
  = Ret (binary64_round neg (Z.pos p) 1).
Proof.
  destruct (Z_to_string_digits (Z.pos p)) as [Hne Hdig]; [lia|].
  apply forallb_digits in Hdig.
  pose proof (digits_value_Z_to_string p) as Hval.
  destruct (Z_to_string_first (Z.pos p)) as (c & rest & Hc & Hcd); [lia|].
  assert (chars (Z_to_string (Z.pos p)) <> []) as Hne'.
  { rewrite Hc. done. }
  set (ds := chars (Z_to_string (Z.pos p))) in *.
  assert (Forall (fun c => is_c_space c = false) ds) as Hsp.
  { eapply Forall_impl; [exact Hdig|]. apply digit_not_c_space. }
  unfold py_float. rewrite chars_append. fold ds.
  destruct neg.
  - change (chars "-") with ["-"%char].
    cbn [app drop_underscores]. rewrite decide_False by done.
    cbn [bool_decide andb].
    rewrite bool_decide_eq_false_2 by done. cbn [andb].
    rewrite drop_underscores_digits by done. cbn [fmap option_fmap option_map].
    rewrite strip_none by (constructor; done).
    cbn [take_sign].
    by rewrite parse_decimal_digits, Hval.
  - change (chars "") with (@nil ascii). cbn [app].
    rewrite drop_underscores_digits by done.
    rewrite strip_none by done.
    assert (take_sign ds = (false, ds)) as ->.
    { subst ds. rewrite Hc. cbn [chars list_ascii_of_string].
      by apply take_sign_digit. }
    by rewrite parse_decimal_digits, Hval.
Qed.

(** X11. A balance whose text, once commas and dollar signs are removed,
    is the decimal writing of a whole number below [2^53] in size comes
    out as that same writing followed by [.00], and its type is [CRD]
    exactly when the number is negative.  This covers integer cells and
    texts such as [$1,234]. *)
Theorem whole_balance_exact (val : Cell) (z : Z) :
  unformatted val = Z_to_string z ->
  - 2 ^ 53 < z < 2 ^ 53 ->
  format_balance val = Ret (Z_to_string z ++ ".00")
  /\ determine_doc_type val = Ret (if z <? 0 then "CRD" else "INV").
Proof.
  intros Htext Hz. pose proof (balance_from_parse val) as Hboth.
  rewrite Htext in Hboth.
  destruct z as [|p|p].
  - assert (py_float (Z_to_string 0) = Ret (FFin false 0 0)) as Hzero
      by (vm_compute; reflexivity).
    rewrite Hzero in Hboth. destruct Hboth as [-> ->].
    split; vm_compute; reflexivity.
  - pose proof (py_float_whole false p) as Hparse.
    change (py_float (Z_to_string (Z.pos p))
            = Ret (binary64_round false (Z.pos p) 1)) in Hparse.
    rewrite Hparse in Hboth.
    destruct (binary64_round_whole false (Z.pos p)) as (m & e & Hr & He & ->);
      [lia|].
    rewrite Hr in Hboth. destruct Hboth as [-> ->]. split; [|done].
    cbn [format_2f]. rewrite hundredths_whole by done.
    unfold fixed2. by rewrite Z.div_mul, Z.mod_mul.
  - pose proof (py_float_whole true p) as Hparse.
    rewrite <- Z_to_string_neg in Hparse. rewrite Hparse in Hboth.
    destruct (binary64_round_whole true (Z.pos p)) as (m & e & Hr & He & ->);
      [lia|].
    rewrite Hr in Hboth. destruct Hboth as [-> ->]. split.
    + cbn [format_2f]. rewrite hundredths_whole by done.
      unfold fixed2. rewrite Z.div_mul, Z.mod_mul by done.
      by rewrite Z_to_string_neg.
    + cbn [float_ge0 negb orb].
      destruct (Z.eqb_spec (Z.pos p * 2 ^ (- e)) 0) as [Hzero|_]; [|done].
      pose proof (Z.pow_pos_nonneg 2 (- e)). nia.
Qed.

Lemma whole_balance_exact_witness :
  format_balance (CStr "-$1,234") = Ret "-1234.00"
  /\ determine_doc_type (CStr "-$1,234") = Ret "CRD".
Proof.
  apply (whole_balance_exact (CStr "-$1,234") (-1234));
    [vm_compute; reflexivity | split; vm_compute; reflexivity].
Defined.

(** ** The page *)

Section PageFacts.

Context {rt : Runtime}.

(** From the moment the frame is read, [process_file] raises in one case
    only: the frame passed the two checks, more than 13 rows were read,
    and its first column does not hold text. *)
Lemma process_frame_raises df e :
  process_frame df = Raise e
  <-> empty df = false /\ (14 <= ncols df)%nat
      /\ (13 < length (rows df))%nat
      /\ holds_text (column_dtype 0 df) = false /\ e = TypeError.
Proof.
  destruct (empty df) eqn:He.
  { rewrite (process_frame_empty _ He). split; [done | by intros [? _]]. }
  destruct (Nat.lt_ge_cases (ncols df) 14) as [Hn|Hn].
  { rewrite (process_frame_narrow _ He Hn). split; [done|]. intros (_ & ? & _). lia. }
  destruct (prepared_cases df) as [[Hwhy [sel Hsel]] | (Hgt & Htext & Hsel)].
  - destruct (process_frame_normal _ _ He Hn Hsel) as (pre & _ & ->).
    split; [done|]. intros (_ & _ & Hgt & Htext & _).
    destruct Hwhy as [Hle | Hholds]; [lia | congruence].
  - rewrite (process_frame_raised _ _ He Hn Hsel). split.
    + intros [= <-]. done.
    + by intros (_ & _ & _ & _ & ->).
Qed.

Lemma process_file_raises file e :
  process_file file = Raise e
  <-> supported file = true
      /\ (read file = Raise e
          \/ exists df,
               read file = Ret df /\ empty df = false /\ (14 <= ncols df)%nat
               /\ (13 < length (rows df))%nat
               /\ holds_text (column_dtype 0 df) = false /\ e = TypeError).
Proof.
  destruct (supported file) eqn:Hsup.
  - rewrite (process_file_supported _ Hsup).
    destruct (read file) as [df|e'] eqn:Hread; cbn.
    + rewrite process_frame_raises. split.
      * intros H. split; [done|]. right. by exists df.
      * intros [_ [[=] | (df' & [= <-] & H)]]. done.
    + split.
      * intros [= ->]. split; [done | by left].
      * intros [_ [[= ->] | (df' & [=] & _)]]. done.
  - rewrite (process_file_unsupported _ Hsup). split; [done | by intros [? _]].
Qed.

(** X10. What the script does with an uploaded file.  It ends in an
    uncaught exception exactly when [process_file] raises, that is when
    the file has one of the extensions and either its reader raises or
    the frame read has at least 14 columns, more than 13 rows and a first
    column that does not hold text ([TypeError]).  Otherwise it ends with
    a page that shows, below its fixed top, one of two things: the table
    [process_file] returned, with one download button carrying the CSV of
    that very table under the name [redpath_upload.csv], and no error; or
    two errors and nothing else, first the reason [process_file] gave and
    then the general one, with no table and no download. *)
Theorem page_shows_table_or_errors
    (to_csv : list NormalizedRecord -> string) (file : UploadedFile) :
  (forall e,
     script to_csv (Some file) = Raise e
     <-> has_extension file
         /\ (read file = Raise e
             \/ exists df,
                  read file = Ret df /\ empty df = false
                  /\ (14 <= ncols df)%nat /\ (13 < length (rows df))%nat
                  /\ holds_text (column_dtype 0 df) = false
                  /\ e = TypeError))
  /\ (forall page,
        script to_csv (Some file) = Ret page ->
        exists below,
          page = (page_top ++ below)%list
          /\ ((exists df,
                 process_file file = Ret (Normalized df)
                 /\ below
                    = [ Write "Processed Data:";
                        Dataframe df;
                        DownloadButton "Download Processed File"
                                       (get_csv_download_link to_csv df)
                                       "redpath_upload.csv" "text/csv" ])
              \/ (exists e,
                    process_file file = Ret (Rejected e)
                    /\ below
                       = [ Error (message e);
                           Error "Failed to process the file. Please check the file format and content." ]))
          /\ (length (filter is_error below)
              + length (filter is_download below) <> 0)%nat
          /\ (filter is_error below = [] \/ filter is_download below = [])).
Proof.
  split.
  - intros e. rewrite <- supported_has_extension, <- process_file_raises.
    unfold script.
    destruct (process_file file) as [[r|df]|e']; cbn;
      split; intros H; first [discriminate H | by injection H as ->].
  - intros page. unfold script.
    destruct (process_file file) as [[r|df]|e']; cbn; [| |done].
    + intros [= <-]. eexists. split; [reflexivity|]. split_and!.
      * right. by exists r.
      * done.
      * by right.
    + intros [= <-]. eexists. split; [reflexivity|]. split_and!.
      * left. by exists df.
      * done.
      * by left.
Qed.

End PageFacts.

Lemma page_shows_table_or_errors_witness :
  script (rt := runtime_without_references) (fun _ => "") (Some sample_file)
  = Raise TypeError.
Proof.
  destruct (page_shows_table_or_errors (rt := runtime_without_references)
              (fun _ => "") sample_file) as [Hraise _].
  apply Hraise. split; [apply sample_file_has_extension|].
  right. exists frame_without_references.
  split_and!; [reflexivity | reflexivity | vm_compute; lia | vm_compute; lia
              | reflexivity | reflexivity].
Defined.
